(** * headshots.py: roster extraction, archive matching, grid composition

    A shallow embedding of [src/headshots.py] and the properties of its
    five parts: the roster extractor ([get_student_numbers]), the archive
    matcher ([find_matching_images]), the sheet namer ([extract_pdf_name]),
    the grid composer ([create_pdf]) and the per-sheet loop of the script
    body ([main]).

    Python [str] values are modelled as [string] (ASCII text).  The
    libraries the script drives (xlrd, zipfile, PIL, fpdf, os) are
    modelled by the observations the script makes of them.  Three calls
    depend on what lies outside the script and can fail for it:
    [Image.open] on a blob that is no image, [img.save] on an image that
    cannot be written as JPEG or on a path that cannot be opened, and
    [pdf.output] on a path that cannot be opened; the record [Env] says
    for each of them whether it fails and, for the last two, with which
    exception. *)

From Stdlib Require Import String Ascii List Arith Bool Lia DecimalString DecimalNat.
Import ListNotations.
Open Scope string_scope.
Open Scope list_scope.
Open Scope nat_scope.

(** ** Python string methods used by the script *)

Module Py.

(** [str.isspace] on an ASCII character: TAB..CR, FS..US and the space. *)
Definition isspace (c : ascii) : bool :=
  let n := nat_of_ascii c in
  ((9 <=? n) && (n <=? 13)) || ((28 <=? n) && (n <=? 32)).

(** [s.lstrip(...)], for the set of characters accepted by [p]. *)
Fixpoint lstrip (p : ascii -> bool) (s : string) : string :=
  match s with
  | EmptyString => EmptyString
  | String c s' => if p c then lstrip p s' else s
  end.

(** [s.rstrip(...)], for the set of characters accepted by [p]. *)
Fixpoint rstrip (p : ascii -> bool) (s : string) : string :=
  match s with
  | EmptyString => EmptyString
  | String c s' =>
      match rstrip p s' with
      | EmptyString => if p c then EmptyString else String c EmptyString
      | r => String c r
      end
  end.

(** [s.strip()]: whitespace removed at both ends. *)
Definition strip (s : string) : string := rstrip isspace (lstrip isspace s).

(** [s.rstrip(c)] for a one-character argument. *)
Definition rstrip_char (c : ascii) (s : string) : string := rstrip (Ascii.eqb c) s.

(** [s.startswith(p)]. *)
Fixpoint startswith (p s : string) : bool :=
  match p, s with
  | EmptyString, _ => true
  | String _ _, EmptyString => false
  | String a p', String b s' => Ascii.eqb a b && startswith p' s'
  end.

(** [sub in s]: [sub] occurs in [s] as a contiguous substring. *)
Fixpoint contains (sub s : string) : bool :=
  startswith sub s ||
  match s with
  | EmptyString => false
  | String _ s' => contains sub s'
  end.

(** [s.endswith(suffix)]. *)
Fixpoint endswith (suffix s : string) : bool :=
  String.eqb suffix s ||
  match s with
  | EmptyString => false
  | String _ s' => endswith suffix s'
  end.

(** [s.endswith((a, b, ...))] with a tuple of suffixes. *)
Definition endswith_any (suffixes : list string) (s : string) : bool :=
  existsb (fun suffix => endswith suffix s) suffixes.

(** [c.lower()] on an ASCII character. *)
Definition lower_char (c : ascii) : ascii :=
  let n := nat_of_ascii c in
  if (65 <=? n) && (n <=? 90) then ascii_of_nat (n + 32) else c.

(** [s.lower()]. *)
Fixpoint lower (s : string) : string :=
  match s with
  | EmptyString => EmptyString
  | String c s' => String (lower_char c) (lower s')
  end.

(** [s.split(sep)] for a one-character separator; never the empty list. *)
Fixpoint split (sep : ascii) (s : string) : list string :=
  match s with
  | EmptyString => [EmptyString]
  | String c s' =>
      if Ascii.eqb c sep then EmptyString :: split sep s'
      else match split sep s' with
           | part :: parts => String c part :: parts
           | [] => [String c EmptyString]
           end
  end.

(** [s.rsplit(sep, 1)] for a one-character separator: [None] stands for
    the one-element list (no separator in [s]), [Some (a, b)] for the
    two-element list cut at the last separator. *)
Fixpoint rsplit1 (sep : ascii) (s : string) : option (string * string) :=
  match s with
  | EmptyString => None
  | String c s' =>
      match rsplit1 sep s' with
      | Some (a, b) => Some (String c a, b)
      | None => if Ascii.eqb c sep then Some (EmptyString, s') else None
      end
  end.

(** [s.replace(c, '')] for a one-character [c]. *)
Fixpoint remove_char (c : ascii) (s : string) : string :=
  match s with
  | EmptyString => EmptyString
  | String a s' => if Ascii.eqb a c then remove_char c s' else String a (remove_char c s')
  end.

(** [str(n)] for a non-negative [int]. *)
Definition str_of_nat (n : nat) : string := NilEmpty.string_of_uint (Nat.to_uint n).

(** Every character of [s] satisfies [p]. *)
Fixpoint all_chars (p : ascii -> bool) (s : string) : bool :=
  match s with
  | EmptyString => true
  | String c s' => p c && all_chars p s'
  end.

(** [os.path.splitext] (posixpath): the extension starts at the last dot
    of the last path component, leading dots of that component apart. *)
Definition splitext (p : string) : string * string :=
  let '(dir, file) :=
    match rsplit1 "/" p with
    | Some (d, f) => ((d ++ "/")%string, f)
    | None => (EmptyString, p)
    end in
  match rsplit1 "." file with
  | Some (stem, ext) =>
      if all_chars (Ascii.eqb ".") stem then (p, EmptyString)
      else ((dir ++ stem)%string, String "." ext)
  | None => (p, EmptyString)
  end.

(** [c] occurs in [s]. *)
Fixpoint In_str (c : ascii) (s : string) : Prop :=
  match s with
  | EmptyString => False
  | String a s' => a = c \/ In_str c s'
  end.

End Py.

(** ** Exceptions and results *)

Inductive exn : Type :=
| IndexError              (* sheet.cell_value outside the sheet *)
| AttributeError          (* a float has no .split *)
| ValueError              (* not enough values to unpack *)
| UnidentifiedImageError  (* PIL cannot decode the blob *)
| OSError                 (* an image that cannot be written as JPEG *)
| FPDFException           (* drawing with no page open *)
| FileNotFoundError.      (* os.remove of a missing file; a path in a missing directory *)

Inductive result (A : Type) : Type :=
| Ok (a : A)
| Raise (e : exn).
Arguments Ok {A} a.
Arguments Raise {A} e.

Definition rbind {A B} (r : result A) (k : A -> result B) : result B :=
  match r with
  | Ok a => k a
  | Raise e => Raise e
  end.

(** A [for] loop that threads an accumulator and stops at the first
    exception. *)
Fixpoint for_fold {A B} (body : B -> A -> result B) (l : list A) (acc : B) : result B :=
  match l with
  | [] => Ok acc
  | x :: l' => rbind (body acc x) (for_fold body l')
  end.

(** [range(start, stop)]. *)
Definition range (start stop : nat) : list nat := seq start (stop - start).

(** ** The roster sheet (xlrd) *)

(** A number cell comes back as a Python float.  The script only takes
    its truth value and its [str()] text, so a float is represented by
    these two observations. *)
Record pyfloat : Type := { float_bool : bool; float_str : string }.

(** What [sheet.cell_value] returns: a [str] for a text cell (and [''] for
    an empty one), a float for a number cell. *)
Inductive cell : Type :=
| Text (s : string)
| Number (x : pyfloat).

Record Sheet : Type := { sheet_name : string; sheet_rows : list (list cell) }.

Definition nrows (sheet : Sheet) : nat := length (sheet_rows sheet).

Definition ncols (sheet : Sheet) : nat :=
  fold_right (fun row n => Nat.max (length row) n) 0 (sheet_rows sheet).

(** xlrd pads short rows with empty cells up to [ncols]; outside the
    sheet the lookup raises. *)
Definition cell_value (sheet : Sheet) (rowx colx : nat) : result cell :=
  if (rowx <? nrows sheet) && (colx <? ncols sheet)
  then Ok (nth colx (nth rowx (sheet_rows sheet) []) (Text ""))
  else Raise IndexError.

(** [bool(v)] of a cell value. *)
Definition truthy (v : cell) : bool :=
  match v with
  | Text s => negb (String.eqb s "")
  | Number x => float_bool x
  end.

(** [str(v)] of a cell value. *)
Definition str (v : cell) : string :=
  match v with
  | Text s => s
  | Number x => float_str x
  end.

(** ** Roster extractor *)

(** Lines 38 to 40: the text of a non-empty cell, normalised. *)
Definition normalize (text : string) : string :=
  let student_number := Py.strip text in
  if Py.contains "." student_number
  then Py.rstrip_char "." (Py.rstrip_char "0" student_number)
  else student_number.

(** Lines 36 to 41: the body of the loop over the rows. *)
Definition read_row (sheet : Sheet) (student_numbers : list string) (row_idx : nat)
  : result (list string) :=
  rbind (cell_value sheet row_idx 0) (fun student_number =>
  if truthy student_number
  then Ok (student_numbers ++ [normalize (str student_number)])
  else Ok student_numbers).

Definition get_student_numbers (sheet : Sheet) : result (list string) :=
  for_fold (read_row sheet) (range 7 (nrows sheet)) [].

(** The cell of column 0 as [cell_value] reads it from a stored row. *)
Definition col0 (row : list cell) : cell := nth 0 row (Text "").

(** What one data row adds to the roster. *)
Definition row_numbers (row : list cell) : list string :=
  if truthy (col0 row) then [normalize (str (col0 row))] else [].

(** ** Sheet namer *)

Definition extract_pdf_name (cell_value : string) : string :=
  match Py.split "," cell_value with
  | part0 :: part1 :: _ =>
      let day := Py.strip part0 in
      let time := Py.strip part1 in
      (day ++ "_" ++ Py.remove_char ":" time)%string
  | _ => "Unknown"
  end.

(** ** The image archive (zipfile) *)

Definition bytes : Type := list Byte.byte.

(** The entries of the archive in archive order. *)
Definition ZipFile : Type := list (string * bytes).

Definition namelist (z : ZipFile) : list string := map fst z.

(** [z.read(name)]: the content of the last entry called [name].  The
    script only reads names it took from [namelist()], so the lookup
    never fails there; an unknown name reads as the empty blob. *)
Definition zip_read (z : ZipFile) (name : string) : bytes :=
  match find (fun entry => String.eqb (fst entry) name) (rev z) with
  | Some entry => snd entry
  | None => []
  end.

(** A Python [dict] from entry names to blobs, in insertion order. *)
Definition dict : Type := list (string * bytes).

(** [d[k] = v]: an existing key keeps its place, a new key goes last. *)
Fixpoint dict_set (k : string) (v : bytes) (d : dict) : dict :=
  match d with
  | [] => [(k, v)]
  | (k', v') :: d' =>
      if String.eqb k' k then (k', v) :: d' else (k', v') :: dict_set k v d'
  end.

Definition keys (d : dict) : list string := map fst d.

(** ** Archive matcher *)

(** The condition of the comprehension on line 56. *)
Definition matches (num f : string) : bool :=
  Py.contains num f && Py.endswith_any [".png"; ".jpg"; ".jpeg"] (Py.lower f).

(** Lines 58 to 61: the matched files of one number are read into the
    mapping. *)
Definition store (z : ZipFile) (images : dict) (matched_files : list string) : dict :=
  fold_left
    (fun images matched_file => dict_set matched_file (zip_read z matched_file) images)
    matched_files images.

Definition find_matching_images (student_numbers : list string) (z : ZipFile) : dict :=
  let zip_files := namelist z in
  fold_left
    (fun images num =>
       let matched_files := filter (matches num) zip_files in
       store z images matched_files)
    student_numbers [].

(** ** Layout constants *)

Definition IMAGES_PER_ROW : nat := 4.
Definition ROWS_PER_PAGE : nat := 4.
Definition IMAGES_PER_PAGE : nat := IMAGES_PER_ROW * ROWS_PER_PAGE.
Definition IMAGE_WIDTH : nat := 40.
Definition IMAGE_HEIGHT : nat := 50.
Definition MARGIN_X : nat := 10.
Definition MARGIN_Y : nat := 10.
Definition SPACING_X : nat := 10.
Definition SPACING_Y : nat := 10.
Definition TEXT_HEIGHT : nat := 6.

(** ** The world the script acts on: disk, console and the PDF object *)

(** The calls the script makes on the FPDF object, as recorded on the
    page that is open when they are made.  With the constants above no
    call reaches the automatic page break (the lowest text line ends at
    284 of 287 units), so pages only come from [add_page]. *)
Inductive pdf_op : Type :=
| Op_image (path : string) (x y w h : nat)
| Op_set_xy (x y : nat)
| Op_set_font (family : string) (size : nat)
| Op_cell (w h : nat) (txt : string)
| Op_ln (h : nat)
| Op_set_x (x : nat).

Definition page : Type := list pdf_op.

Inductive file : Type :=
| Jpeg_file
| Pdf_file (pages : list page).

Inductive message : Type :=
| Print_roster (student_numbers : list string)
| Print_warning_no_name (sheet_name : string)
| Print_no_matching (sheet_name : string)
| Print_error_processing (filename : string) (e : exn)
| Print_pdf_saved (output_pdf : string)
| Print_no_valid_images.

Record world : Type := {
  disk : list (string * file);   (* files of the working directory *)
  stdout : list message;         (* what was printed, oldest first *)
  pdf : list page                (* pdf.pages, first page first *)
}.

Definition disk_remove (path : string) (d : list (string * file)) : list (string * file) :=
  filter (fun entry => negb (String.eqb (fst entry) path)) d.

Definition disk_write (path : string) (f : file) (d : list (string * file)) : list (string * file) :=
  (path, f) :: disk_remove path d.

Definition on_disk (path : string) (d : list (string * file)) : bool :=
  existsb (fun entry => String.eqb (fst entry) path) d.

(** What the script observes of PIL and of the file system besides the
    files themselves: whether [Image.open] accepts a blob; the exception
    that [img.save] raises for the image opened from a blob and a path,
    if it raises one (the pixel data does not load, the mode is one that
    JPEG does not hold, as RGBA or a palette, or the path cannot be
    opened for writing); and the exception that [pdf.output] raises for
    a path, if it raises one (the path cannot be opened for writing, for
    instance because its directory does not exist). *)
Record Env : Type := {
  decodable : bytes -> bool;
  save_error : bytes -> string -> option exn;
  output_error : string -> option exn
}.

(** An opened image, represented by the blob it was opened from. *)
Definition Image : Type := bytes.

(** Record [op] on the last page; [None] when no page is open. *)
Fixpoint draw (op : pdf_op) (pages : list page) : option (list page) :=
  match pages with
  | [] => None
  | [p] => Some [p ++ [op]]
  | p :: ps => option_map (cons p) (draw op ps)
  end.

(** ** Statements with effects: a state and exception monad *)

Definition M (A : Type) : Type := world -> result A * world.

Definition ret {A} (a : A) : M A := fun w => (Ok a, w).

Definition raise {A} (e : exn) : M A := fun w => (Raise e, w).

Definition bind {A B} (c : M A) (k : A -> M B) : M B :=
  fun w =>
    match c w with
    | (Ok a, w') => k a w'
    | (Raise e, w') => (Raise e, w')
    end.

Notation "x <- c ;; k" := (bind c (fun x => k))
  (at level 61, c at next level, right associativity).
Notation "c ;;; k" := (bind c (fun _ => k))
  (at level 61, right associativity).

(** A pure computation that may raise. *)
Definition lift {A} (r : result A) : M A := fun w => (r, w).

(** [try: body except Exception as e: handler(e)]. *)
Definition try_except (body : M unit) (handler : exn -> M unit) : M unit :=
  fun w =>
    match body w with
    | (Ok tt, w') => (Ok tt, w')
    | (Raise e, w') => handler e w'
    end.

(** [for x in l: body(x)]. *)
Fixpoint for_each {A} (l : list A) (body : A -> M unit) : M unit :=
  match l with
  | [] => ret tt
  | x :: l' => body x ;;; for_each l' body
  end.

Definition print (m : message) : M unit :=
  fun w => (Ok tt, {| disk := disk w; stdout := stdout w ++ [m]; pdf := pdf w |}).

(** [pdf = FPDF()]. *)
Definition new_FPDF : M unit :=
  fun w => (Ok tt, {| disk := disk w; stdout := stdout w; pdf := [] |}).

Definition pdf_add_page : M unit :=
  fun w => (Ok tt, {| disk := disk w; stdout := stdout w; pdf := pdf w ++ [[]] |}).

Definition pdf_draw (op : pdf_op) : M unit :=
  fun w =>
    match draw op (pdf w) with
    | Some pages => (Ok tt, {| disk := disk w; stdout := stdout w; pdf := pages |})
    | None => (Raise FPDFException, w)
    end.

Definition pdf_pages : M (list page) := fun w => (Ok (pdf w), w).

(** [os.remove(path)]. *)
Definition os_remove (path : string) : M unit :=
  fun w =>
    if on_disk path (disk w)
    then (Ok tt, {| disk := disk_remove path (disk w); stdout := stdout w; pdf := pdf w |})
    else (Raise FileNotFoundError, w).

(** ** Grid composer *)

(** [range(start, stop, step)] for a positive step. *)
Definition range_step (start stop step : nat) : list nat :=
  map (fun k => start + k * step) (seq 0 ((stop - start + (step - 1)) / step)).

(** [enumerate(l)], counting from [n]. *)
Fixpoint enumerate_from {A} (n : nat) (l : list A) : list (nat * A) :=
  match l with
  | [] => []
  | x :: l' => (n, x) :: enumerate_from (S n) l'
  end.

Definition enumerate {A} (l : list A) : list (nat * A) := enumerate_from 0 l.

(** [l[i : i + n]]. *)
Definition slice {A} (i n : nat) (l : list A) : list A := firstn n (skipn i l).

Definition remove_file_extension (filename : string) : string :=
  fst (Py.splitext filename).

(** Line 98: the name of the temporary image file. *)
Definition temp_path (n : nat) : string :=
  ("temp_" ++ Py.str_of_nat n ++ ".jpg")%string.

(** Lines 92 and 93: the corner of the grid cell with index [j]. *)
Definition cell_x (j : nat) : nat :=
  MARGIN_X + (j mod IMAGES_PER_ROW) * (IMAGE_WIDTH + SPACING_X).

Definition cell_y (j : nat) : nat :=
  MARGIN_Y + (j / IMAGES_PER_ROW) * (IMAGE_HEIGHT + SPACING_Y + TEXT_HEIGHT * 2).

(** Line 80: the start indices of the pages of a document. *)
Definition page_starts (image_list : list (string * bytes)) : list nat :=
  range_step 0 (length image_list) IMAGES_PER_PAGE.

Section Composer.

Variable env : Env.

(** [Image.open(BytesIO(img_bytes))]. *)
Definition Image_open (img_bytes : bytes) : M Image :=
  if decodable env img_bytes then ret img_bytes else raise UnidentifiedImageError.

(** [img.save(path)], which writes a JPEG file for a path that ends in
    [.jpg]; a save that fails is taken to leave the disk as it was. *)
Definition img_save (img : Image) (path : string) : M unit :=
  fun w =>
    match save_error env img path with
    | None => (Ok tt, {| disk := disk_write path Jpeg_file (disk w);
                         stdout := stdout w; pdf := pdf w |})
    | Some e => (Raise e, w)
    end.

(** [pdf.output(path)]; when it fails nothing is written. *)
Definition pdf_output (path : string) : M unit :=
  fun w =>
    match output_error env path with
    | None => (Ok tt, {| disk := disk_write path (Pdf_file (pdf w)) (disk w);
                         stdout := stdout w; pdf := pdf w |})
    | Some e => (Raise e, w)
    end.

(** Lines 96 to 121: the body of the [try]. *)
Definition place_image (i j : nat) (filename : string) (img_bytes : bytes) (x y : nat) : M unit :=
  img <- Image_open img_bytes ;;
  let img_path := temp_path (i + j) in
  img_save img img_path ;;;
  pdf_draw (Op_image img_path x y IMAGE_WIDTH IMAGE_HEIGHT) ;;;
  let label := remove_file_extension filename in
  match Py.rsplit1 "(" label with
  | None => raise ValueError
  | Some (name, student_number) =>
      let student_number := Py.rstrip_char ")" student_number in
      pdf_draw (Op_set_xy x (y + IMAGE_HEIGHT)) ;;;
      pdf_draw (Op_set_font "Helvetica" 8) ;;;
      pdf_draw (Op_cell IMAGE_WIDTH (TEXT_HEIGHT - 2) (Py.strip name)) ;;;
      pdf_draw (Op_ln (TEXT_HEIGHT - 2)) ;;;
      pdf_draw (Op_set_x x) ;;;
      pdf_draw (Op_cell IMAGE_WIDTH (TEXT_HEIGHT - 2) student_number) ;;;
      os_remove img_path
  end.

(** Lines 87 to 124: one turn of the inner loop. *)
Definition process_image (i : nat) (entry : nat * (string * bytes)) : M unit :=
  let '(j, (filename, img_bytes)) := entry in
  let x := cell_x j in
  let y := cell_y j in
  try_except (place_image i j filename img_bytes x y)
             (fun e => print (Print_error_processing filename e)).

(** Lines 80 to 124: one turn of the outer loop. *)
Definition process_page (image_list : list (string * bytes)) (i : nat) : M unit :=
  pdf_add_page ;;;
  let page_images := slice i IMAGES_PER_PAGE image_list in
  for_each (enumerate page_images) (process_image i).

Definition create_pdf (image_data : dict) (output_pdf : string) : M unit :=
  new_FPDF ;;;
  let image_list := image_data in
  for_each (page_starts image_list) (process_page image_list) ;;;
  pages <- pdf_pages ;;
  if 0 <? length pages
  then pdf_output output_pdf ;;; print (Print_pdf_saved output_pdf)
  else print Print_no_valid_images.

(** ** The loop over the sheets of the workbook (lines 163 to 186) *)

Definition process_sheet (zip_file : ZipFile) (sheet : Sheet) : M unit :=
  student_numbers <- lift (get_student_numbers sheet) ;;
  print (Print_roster student_numbers) ;;;
  b3 <- lift (cell_value sheet 2 1) ;;
  match b3 with
  | Number _ => raise AttributeError
  | Text b3 =>
      let pdf_name := extract_pdf_name b3 in
      if String.eqb pdf_name ""
      then print (Print_warning_no_name (sheet_name sheet))
      else
        let images := find_matching_images student_numbers zip_file in
        let pdf_file := (pdf_name ++ ".pdf")%string in
        match images with
        | _ :: _ => create_pdf images pdf_file
        | [] => print (Print_no_matching (sheet_name sheet))
        end
  end.

Definition main (workbook : list Sheet) (zip_file : ZipFile) : M unit :=
  for_each workbook (process_sheet zip_file).

End Composer.

(** Lines 97 to 99 succeed for the blob of the entry with number [n]:
    it opens and its image is saved under the temporary path. *)
Definition saves (env : Env) (n : nat) (img_bytes : bytes) : bool :=
  decodable env img_bytes
  && match save_error env img_bytes (temp_path n) with
     | None => true
     | Some _ => false
     end.

(** What the per-image code leaves on the page for one entry, and what it
    prints, read off [place_image] case by case. *)
Definition entry_ops (env : Env) (i : nat) (entry : nat * (string * bytes)) : list pdf_op :=
  let '(j, (filename, img_bytes)) := entry in
  if saves env (i + j) img_bytes then
    Op_image (temp_path (i + j)) (cell_x j) (cell_y j) IMAGE_WIDTH IMAGE_HEIGHT ::
    match Py.rsplit1 "(" (remove_file_extension filename) with
    | None => []
    | Some (name, student_number) =>
        [Op_set_xy (cell_x j) (cell_y j + IMAGE_HEIGHT);
         Op_set_font "Helvetica" 8;
         Op_cell IMAGE_WIDTH (TEXT_HEIGHT - 2) (Py.strip name);
         Op_ln (TEXT_HEIGHT - 2);
         Op_set_x (cell_x j);
         Op_cell IMAGE_WIDTH (TEXT_HEIGHT - 2) (Py.rstrip_char ")" student_number)]
    end
  else [].

Definition entry_messages (env : Env) (i : nat) (entry : nat * (string * bytes)) : list message :=
  let '(j, (filename, img_bytes)) := entry in
  if decodable env img_bytes then
    match save_error env img_bytes (temp_path (i + j)) with
    | Some e => [Print_error_processing filename e]
    | None =>
        match Py.rsplit1 "(" (remove_file_extension filename) with
        | None => [Print_error_processing filename ValueError]
        | Some _ => []
        end
    end
  else [Print_error_processing filename UnidentifiedImageError].

(** The pages [create_pdf] builds, one per start index. *)
Definition rendered_page (env : Env) (image_list : list (string * bytes)) (i : nat) : page :=
  flat_map (entry_ops env i) (enumerate (slice i IMAGES_PER_PAGE image_list)).

Definition page_messages (env : Env) (image_list : list (string * bytes)) (i : nat) : list message :=
  flat_map (entry_messages env i) (enumerate (slice i IMAGES_PER_PAGE image_list)).

(** The number of images drawn on a page. *)
Definition is_image (op : pdf_op) : bool :=
  match op with
  | Op_image _ _ _ _ _ => true
  | _ => false
  end.

Definition count_images (p : page) : nat := length (filter is_image p).

(** ** Sample inputs *)

(** A stand-in for PIL's decoder in the examples: a blob is an image
    when it starts with the JPEG start-of-image marker FF D8. *)
Definition jpeg_magic (b : bytes) : bool :=
  match b with
  | Byte.xff :: Byte.xd8 :: _ => true
  | _ => false
  end.

Definition jpeg_blob : bytes := [Byte.xff; Byte.xd8; Byte.xff; Byte.xe0].

(** A working directory without sub-directories: opening a path that
    holds a ['/'] for writing raises, any other path can be written. *)
Definition flat_directory (path : string) : option exn :=
  if Py.contains "/" path then Some FileNotFoundError else None.

(** The sample surroundings: JPEG blobs open and are saved. *)
Definition sample_env : Env :=
  {| decodable := jpeg_magic;
     save_error := fun _ path => flat_directory path;
     output_error := flat_directory |}.




Definition empty_world : world := {| disk := []; stdout := []; pdf := [] |}.

(** Seven header rows, as the export of the timetabling system has. *)
Definition header_rows (b3 : string) : list (list cell) :=
  [ [Text "Class list"; Text ""];
    [Text ""; Text ""];
    [Text "Activity"; Text b3];
    [Text ""; Text ""];
    [Text ""; Text ""];
    [Text ""; Text ""];
    [Text "Student"; Text "Name"] ].

(** A sheet whose only data row holds a cell of blanks. *)
Definition blank_cell_sheet : Sheet :=
  {| sheet_name := "Sheet1";
     sheet_rows := header_rows "Monday, 14:00, Tutorial 3" ++ [[Text " "; Text "Jane Doe"]] |}.

(** A sheet with the two cells of the normalisation examples, an empty
    cell between them and a zero after them. *)
Definition sample_sheet : Sheet :=
  {| sheet_name := "Sheet1";
     sheet_rows :=
       header_rows "Monday, 14:00, Tutorial 3" ++
       [ [Text "12345.0"; Text "Jane Doe"];
         [Text ""; Text ""];
         [Text "  98765  "; Text "John Roe"];
         [Number {| float_bool := false; float_str := "0.0" |}; Text ""] ] |}.

(** A sheet whose cell B3 holds no comma. *)
Definition unnamed_sheet : Sheet :=
  {| sheet_name := "Sheet1";
     sheet_rows := header_rows "Tutorial 3" ++ [[Text "111"; Text "Ann Lee"]] |}.

Definition sample_archive : ZipFile :=
  [ ("A(111).jpg", jpeg_blob); ("B(222).PNG", jpeg_blob);
    ("notes(111).txt", []); ("C(999).jpeg", jpeg_blob) ].


(** The warning of the branch taken when no name is found in cell B3. *)
Definition is_warning (m : message) : bool :=
  match m with
  | Print_warning_no_name _ => true
  | _ => false
  end.

(** What a statement prints is added after what was printed before, and
    none of it is the warning of the empty-name branch. *)
Definition prints_no_warning (c : M unit) : Prop :=
  forall w, exists printed,
    stdout (snd (c w)) = stdout w ++ printed
    /\ forall m, In m printed -> is_warning m = false.
(** ** Notions used to state further properties *)

(** [c] is neither whitespace nor the decimal point. *)
Definition plain_char (c : ascii) : bool :=
  negb (Py.isspace c) && negb (Ascii.eqb "." c).

(** [seen] with [k] added at the end unless it is there already: how the
    keys of a Python [dict] grow on [d[k] = v]. *)
Definition remember (seen : list string) (k : string) : list string :=
  if existsb (String.eqb k) seen then seen else seen ++ [k].

(** The elements of [l] in the order of their first occurrence. *)
Definition first_occurrences (l : list string) : list string :=
  fold_left remember l [].

(** Lines 52 to 57: all the matched file names, number by number. *)
Definition all_matched_files (student_numbers : list string) (z : ZipFile) : list string :=
  flat_map (fun num => filter (matches num) (namelist z)) student_numbers.

(** What the per-image code does to the disk for one entry, read off
    [place_image] case by case: nothing when the image is not saved, the
    temporary file saved and removed when the label splits, saved and
    left when it does not. *)
Definition entry_disk (env : Env) (i : nat) (entry : nat * (string * bytes))
           (d : list (string * file)) : list (string * file) :=
  let '(j, (filename, img_bytes)) := entry in
  if saves env (i + j) img_bytes then
    match Py.rsplit1 "(" (remove_file_extension filename) with
    | None => disk_write (temp_path (i + j)) Jpeg_file d
    | Some _ => disk_remove (temp_path (i + j)) (disk_write (temp_path (i + j)) Jpeg_file d)
    end
  else d.

(** The entry with number [fst entry] fails: its image is not saved or
    its label has no ['(']. *)
Definition entry_fails (env : Env) (entry : nat * (string * bytes)) : bool :=
  negb (saves env (fst entry) (snd (snd entry)))
  || match Py.rsplit1 "(" (remove_file_extension (fst (snd entry))) with
     | None => true
     | Some _ => false
     end.

(** The message printed for a failing entry. *)
Definition error_message (env : Env) (entry : nat * (string * bytes)) : message :=
  Print_error_processing (fst (snd entry))
    (if decodable env (snd (snd entry)) then
       match save_error env (snd (snd entry)) (temp_path (fst entry)) with
       | Some e => e
       | None => ValueError
       end
     else UnidentifiedImageError).

(** What the disk holds under a path. *)
Definition disk_read (path : string) (d : list (string * file)) : option file :=
  option_map snd (find (fun entry => String.eqb (fst entry) path) d).

(** What the disk holds under the temporary path of the entry with
    number [n] once the entry is processed, given what it held before:
    when the image is saved, the saved image if the label does not split
    and nothing if it does; what was there when the image is not
    saved. *)
Definition temp_file_after (env : Env) (n : nat) (entry : string * bytes)
           (before : option file) : option file :=
  if saves env n (snd entry) then
    match Py.rsplit1 "(" (remove_file_extension (fst entry)) with
    | None => Some Jpeg_file
    | Some _ => None
    end
  else before.




(** The box of grid slot [j]: the image and the two label lines under it. *)
Definition slot_right (j : nat) : nat := cell_x j + IMAGE_WIDTH.
Definition slot_bottom (j : nat) : nat := cell_y j + IMAGE_HEIGHT + 2 * (TEXT_HEIGHT - 2).

(** A sheet of two rows only: cell B3 is outside it. *)
Definition short_sheet : Sheet :=
  {| sheet_name := "Short"; sheet_rows := [[Text "Class list"; Text ""]; [Text ""; Text ""]] |}.

(** A sheet whose cell B3 holds a number. *)
Definition numeric_b3_sheet : Sheet :=
  {| sheet_name := "Numeric";
     sheet_rows := [[Text "Class list"; Text ""]; [Text ""; Text ""];
                    [Text "Activity"; Number {| float_bool := true; float_str := "3.0" |}]] |}.

(** A sheet with a name in B3 and one student who has no photo. *)
Definition unmatched_sheet : Sheet :=
  {| sheet_name := "Sheet2";
     sheet_rows := header_rows "Tuesday, 09:00" ++ [[Text "555"; Text "Lee Poe"]] |}.

(** A sheet with a name in B3 and one student who has a photo. *)
Definition matched_sheet : Sheet :=
  {| sheet_name := "Sheet3";
     sheet_rows := header_rows "Tuesday, 09:00" ++ [[Text "111"; Text "Ann Lee"]] |}.

(** * Properties *)

(** ** Strings *)

Lemma In_str_lstrip (p : ascii -> bool) (c : ascii) (s : string) :
  Py.In_str c s -> p c = false -> Py.In_str c (Py.lstrip p s).
Proof.
  induction s as [|a s IH]; simpl; intros Hin Hp; [assumption|].
  destruct (p a) eqn:Hpa.
  - destruct Hin as [->|Hin]; [congruence | auto].
  - exact Hin.
Qed.

Lemma In_str_rstrip (p : ascii -> bool) (c : ascii) (s : string) :
  Py.In_str c s -> p c = false -> Py.In_str c (Py.rstrip p s).
Proof.
  induction s as [|a s IH]; simpl; intros Hin Hp; [assumption|].
  destruct Hin as [->|Hin].
  - destruct (Py.rstrip p s); [rewrite Hp|]; simpl; auto.
  - specialize (IH Hin Hp).
    destruct (Py.rstrip p s); [contradiction | simpl; auto].
Qed.

Lemma In_str_nonempty (c : ascii) (s : string) : Py.In_str c s -> s <> "".
Proof. destruct s; simpl; [tauto | discriminate]. Qed.

Lemma normalize_keeps (text : string) (c : ascii) :
  Py.In_str c text -> Py.isspace c = false -> c <> "."%char -> c <> "0"%char ->
  Py.In_str c (normalize text).
Proof.
  intros Hin Hsp Hdot Hzero. unfold normalize, Py.strip, Py.rstrip_char.
  assert (Hs : Py.In_str c (Py.rstrip Py.isspace (Py.lstrip Py.isspace text))).
  { apply In_str_rstrip; [apply In_str_lstrip|]; assumption. }
  destruct (Py.contains _ _); [|exact Hs].
  apply In_str_rstrip; [apply In_str_rstrip; [exact Hs|]|].
  - apply Ascii.eqb_neq. congruence.
  - apply Ascii.eqb_neq. congruence.
Qed.

(** ** Roster extractor *)

Lemma skipn_cons_nth {A} (d : A) (l : list A) (a : nat) :
  a < length l -> skipn a l = nth a l d :: skipn (S a) l.
Proof.
  revert a. induction l as [|x l IH]; intros a Ha; simpl in Ha; [lia|].
  destruct a as [|a]; [reflexivity|].
  change (skipn a l = nth a l d :: skipn (S a) l). apply IH. lia.
Qed.

Lemma roster_loop (sheet : Sheet) (n a : nat) (acc : list string) :
  0 < ncols sheet -> a + n <= nrows sheet ->
  for_fold (read_row sheet) (seq a n) acc
  = Ok (acc ++ flat_map row_numbers (firstn n (skipn a (sheet_rows sheet)))).
Proof.
  intros Hc. revert a acc. induction n as [|n IH]; intros a acc Ha.
  - cbn. now rewrite app_nil_r.
  - assert (Hlt : a < nrows sheet) by lia.
    cbn [seq for_fold]. unfold read_row at 1, cell_value.
    apply Nat.ltb_lt in Hlt as Hlt'. apply Nat.ltb_lt in Hc as Hc'.
    rewrite Hlt', Hc'. cbn [andb rbind].
    rewrite (skipn_cons_nth [] (sheet_rows sheet) a Hlt).
    cbn [firstn flat_map]. fold (col0 (nth a (sheet_rows sheet) [])).
    unfold row_numbers at 1.
    destruct (truthy (col0 (nth a (sheet_rows sheet) []))).
    + cbn [rbind]. rewrite IH by lia. now rewrite <- app_assoc.
    + cbn [rbind]. rewrite IH by lia. reflexivity.
Qed.

Lemma get_student_numbers_rows (sheet : Sheet) :
  0 < ncols sheet ->
  get_student_numbers sheet = Ok (flat_map row_numbers (skipn 7 (sheet_rows sheet))).
Proof.
  intros Hc. unfold get_student_numbers, range.
  destruct (Nat.le_gt_cases 7 (nrows sheet)) as [Hn|Hn].
  - rewrite roster_loop by (assumption || lia). cbn [app].
    rewrite firstn_all2; [reflexivity|]. rewrite length_skipn. unfold nrows. lia.
  - replace (nrows sheet - 7) with 0 by lia. cbn [seq for_fold].
    rewrite skipn_all2; [reflexivity|]. unfold nrows in Hn. lia.
Qed.

Lemma In_skipn {A} (x : A) (n : nat) (l : list A) :
  In x (skipn n l) <-> exists r, n <= r /\ nth_error l r = Some x.
Proof.
  revert n. induction l as [|y l IH]; intros n.
  - rewrite skipn_nil. split; [intros []|]. intros [r [_ Hr]]. destruct r; discriminate.
  - destruct n as [|n].
    + simpl skipn. split.
      * intros Hin. apply In_nth_error in Hin as [r Hr]. exists r. split; [lia|assumption].
      * intros [r [_ Hr]]. eapply nth_error_In; eassumption.
    + simpl skipn. rewrite IH. split.
      * intros [r [Hle Hr]]. exists (S r). split; [lia|assumption].
      * intros [r [Hle Hr]]. destruct r as [|r]; [lia|]. exists r. split; [lia|assumption].
Qed.
(** ** Grid composer: what a run leaves in the world *)

Arguments temp_path : simpl never.

Lemma draw_last (op : pdf_op) (ps : list page) (p : page) :
  draw op (ps ++ [p]) = Some (ps ++ [p ++ [op]]).
Proof.
  induction ps as [|q ps IH]; [reflexivity|].
  cbn [app draw]. rewrite IH.
  destruct (ps ++ [p]) eqn:E; [destruct ps; discriminate | reflexivity].
Qed.

Lemma on_disk_write (path : string) (f : file) (d : list (string * file)) :
  on_disk path (disk_write path f d) = true.
Proof. unfold on_disk, disk_write. cbn. now rewrite String.eqb_refl. Qed.

Lemma enumerate_from_app {A} (a b : list A) (n : nat) :
  enumerate_from n (a ++ b) = enumerate_from n a ++ enumerate_from (n + length a) b.
Proof.
  revert n. induction a as [|x a IH]; intros n; cbn.
  - now rewrite Nat.add_0_r.
  - rewrite IH. now rewrite Nat.add_succ_r.
Qed.

Lemma map_shift_enumerate {A} (base n : nat) (l : list A) :
  map (fun je => (base + fst je, snd je)) (enumerate_from n l) = enumerate_from (base + n) l.
Proof.
  revert n. induction l as [|x l IH]; intros n; cbn; [reflexivity|].
  rewrite IH. now rewrite Nat.add_succ_r.
Qed.

Lemma flat_map_map {A B C} (f : B -> list C) (g : A -> B) (l : list A) :
  flat_map f (map g l) = flat_map (fun x => f (g x)) l.
Proof. induction l as [|x l IH]; cbn; [reflexivity | now rewrite IH]. Qed.

Lemma fold_left_flat_map {A B C} (f : A -> C -> A) (g : B -> list C) (l : list B) (a : A) :
  fold_left f (flat_map g l) a = fold_left (fun a x => fold_left f (g x) a) l a.
Proof.
  revert a. induction l as [|x l IH]; intros a; cbn; [reflexivity|].
  now rewrite fold_left_app, IH.
Qed.

Lemma fold_left_map {A B C} (f : A -> C -> A) (g : B -> C) (l : list B) (a : A) :
  fold_left f (map g l) a = fold_left (fun a x => f a (g x)) l a.
Proof. revert a. induction l as [|x l IH]; intros a; cbn; [reflexivity | apply IH]. Qed.

Lemma fold_left_pointwise {A B} (f g : A -> B -> A) (l : list B) (a : A) :
  (forall a x, f a x = g a x) -> fold_left f l a = fold_left g l a.
Proof.
  intros H. revert a. induction l as [|x l IH]; intros a; cbn; [reflexivity|].
  now rewrite H, IH.
Qed.

Lemma slice_next_page {A} (a : nat) (l : list A) :
  slice (S a * 16) 16 l = slice (a * 16) 16 (skipn 16 l).
Proof.
  unfold slice. rewrite skipn_skipn. f_equal. f_equal. lia.
Qed.

Lemma pages_cover {A} (N base : nat) (l : list A) :
  length l <= N * 16 ->
  flat_map (fun q => map (fun je => (base + q * 16 + fst je, snd je))
                         (enumerate (slice (q * 16) 16 l)))
           (seq 0 N)
  = enumerate_from base l.
Proof.
  revert base l. induction N as [|N IH]; intros base l Hlen.
  - destruct l; [reflexivity | cbn in Hlen; lia].
  - cbn [seq flat_map]. rewrite <- seq_shift, flat_map_map.
    rewrite (flat_map_ext _
               (fun q => map (fun je => (base + 16 + q * 16 + fst je, snd je))
                             (enumerate (slice (q * 16) 16 (skipn 16 l))))).
    2:{ intros q. rewrite slice_next_page. apply map_ext. intros je. f_equal. lia. }
    rewrite IH by (rewrite length_skipn; lia).
    rewrite (map_ext _ (fun je => (base + fst je, snd je)))
      by (intros je; f_equal; lia).
    unfold enumerate. rewrite map_shift_enumerate, Nat.add_0_r.
    unfold slice. change (skipn (0 * 16) l) with l.
    destruct (Nat.le_gt_cases (length l) 16) as [Hshort|Hlong].
    + rewrite firstn_all2, skipn_all2 by assumption. cbn. now rewrite app_nil_r.
    + rewrite <- (firstn_skipn 16 l) at 3. rewrite enumerate_from_app.
      rewrite length_firstn. now replace (Nat.min 16 (length l)) with 16 by lia.
Qed.

Lemma pages_partition (image_list : list (string * bytes)) :
  flat_map (fun i => map (fun je => (i + fst je, snd je))
                         (enumerate (slice i IMAGES_PER_PAGE image_list)))
           (page_starts image_list)
  = enumerate image_list.
Proof.
  unfold page_starts, range_step. change IMAGES_PER_PAGE with 16.
  rewrite flat_map_map. cbn [Nat.add].
  rewrite (flat_map_ext _
             (fun q => map (fun je => (0 + q * 16 + fst je, snd je))
                           (enumerate (slice (q * 16) 16 image_list))))
    by reflexivity.
  apply pages_cover.
  pose proof (Nat.div_mod_eq (length image_list - 0 + (16 - 1)) 16).
  pose proof (Nat.mod_upper_bound (length image_list - 0 + (16 - 1)) 16).
  lia.
Qed.

Lemma entry_disk_global (env : Env) (i : nat)
      (entry : nat * (string * bytes)) (d : list (string * file)) :
  entry_disk env i entry d = entry_disk env 0 (i + fst entry, snd entry) d.
Proof. destruct entry as [j [filename img_bytes]]. reflexivity. Qed.

Lemma entry_messages_global (env : Env) (i : nat) (entry : nat * (string * bytes)) :
  entry_messages env i entry = entry_messages env 0 (i + fst entry, snd entry).
Proof. destruct entry as [j [filename img_bytes]]. reflexivity. Qed.

Lemma length_page_starts (image_list : list (string * bytes)) :
  length (page_starts image_list) = (length image_list + 15) / 16.
Proof.
  unfold page_starts, range_step. rewrite length_map, length_seq.
  change IMAGES_PER_PAGE with 16. now rewrite Nat.sub_0_r.
Qed.

Section ComposerFacts.

Variable env : Env.

Lemma process_image_world (i : nat) (entry : nat * (string * bytes)) (w : world)
      (ps : list page) (p : page) :
  pdf w = ps ++ [p] ->
  process_image env i entry w
  = (Ok tt, {| disk := entry_disk env i entry (disk w);
               stdout := stdout w ++ entry_messages env i entry;
               pdf := ps ++ [p ++ entry_ops env i entry] |}).
Proof.
  destruct entry as [j [filename img_bytes]]. intros Hpdf.
  unfold process_image, try_except, place_image, Image_open, entry_messages, entry_ops,
    entry_disk, saves.
  unfold bind at 1.
  destruct (decodable env img_bytes); cbn [andb].
  - unfold ret at 1. unfold bind at 1. unfold img_save at 1.
    destruct (save_error env img_bytes (temp_path (i + j))) as [e|].
    + unfold print. cbn [pdf disk stdout].
      rewrite app_nil_r. rewrite Hpdf. destruct w; reflexivity.
    + unfold bind at 1. unfold pdf_draw at 1. cbn [pdf disk stdout].
      rewrite Hpdf, draw_last.
      destruct (Py.rsplit1 "(" (remove_file_extension filename)) as [[name student_number]|].
      * unfold bind, pdf_draw, os_remove. cbn [pdf disk stdout].
        repeat (rewrite draw_last; cbn [pdf disk stdout]).
        rewrite on_disk_write. rewrite app_nil_r.
        repeat rewrite <- app_assoc. reflexivity.
      * unfold raise, print. cbn [pdf disk stdout]. reflexivity.
  - unfold raise, print. cbn [pdf disk stdout].
    rewrite app_nil_r. rewrite Hpdf. destruct w; reflexivity.
Qed.

Lemma process_batch_world (i : nat) (entries : list (nat * (string * bytes))) (w : world)
      (ps : list page) (p : page) :
  pdf w = ps ++ [p] ->
  for_each entries (process_image env i) w
  = (Ok tt, {| disk := fold_left (fun d e => entry_disk env i e d) entries (disk w);
               stdout := stdout w ++ flat_map (entry_messages env i) entries;
               pdf := ps ++ [p ++ flat_map (entry_ops env i) entries] |}).
Proof.
  revert w p. induction entries as [|entry entries IH]; intros w p Hpdf.
  - cbn [for_each flat_map fold_left ret]. rewrite !app_nil_r.
    destruct w; cbn in *; subst; reflexivity.
  - cbn [for_each flat_map fold_left]. unfold bind.
    rewrite (process_image_world i entry w ps p Hpdf).
    rewrite (IH {| disk := entry_disk env i entry (disk w);
                   stdout := stdout w ++ entry_messages env i entry;
                   pdf := ps ++ [p ++ entry_ops env i entry] |}
                (p ++ entry_ops env i entry) eq_refl).
    cbn [stdout disk]. now rewrite <- !app_assoc.
Qed.

Lemma process_page_world (image_list : list (string * bytes)) (i : nat) (w : world) :
  process_page env image_list i w
  = (Ok tt, {| disk := fold_left (fun d e => entry_disk env i e d)
                         (enumerate (slice i IMAGES_PER_PAGE image_list)) (disk w);
               stdout := stdout w ++ page_messages env image_list i;
               pdf := pdf w ++ [rendered_page env image_list i] |}).
Proof.
  unfold process_page, bind, pdf_add_page.
  rewrite (process_batch_world i (enumerate (slice i IMAGES_PER_PAGE image_list))
             {| disk := disk w; stdout := stdout w; pdf := pdf w ++ [[]] |}
             (pdf w) [] eq_refl).
  reflexivity.
Qed.

Lemma process_pages_world (image_list : list (string * bytes)) (starts : list nat) (w : world) :
  for_each starts (process_page env image_list) w
  = (Ok tt,
     {| disk := fold_left (fun d e => entry_disk env 0 e d)
                  (flat_map (fun i => map (fun je => (i + fst je, snd je))
                                          (enumerate (slice i IMAGES_PER_PAGE image_list)))
                            starts)
                  (disk w);
        stdout := stdout w
                  ++ flat_map (entry_messages env 0)
                       (flat_map (fun i => map (fun je => (i + fst je, snd je))
                                               (enumerate (slice i IMAGES_PER_PAGE image_list)))
                                 starts);
        pdf := pdf w ++ map (rendered_page env image_list) starts |}).
Proof.
  revert w. induction starts as [|i starts IH]; intros w.
  - cbn [for_each flat_map map fold_left ret]. rewrite !app_nil_r.
    destruct w; reflexivity.
  - cbn [for_each flat_map map]. unfold bind.
    rewrite process_page_world, IH. cbn [stdout disk pdf]. f_equal. f_equal.
    + rewrite fold_left_app, fold_left_map. f_equal.
      apply fold_left_pointwise. intros d e. apply entry_disk_global.
    + rewrite <- app_assoc. f_equal. rewrite flat_map_app, flat_map_map. f_equal.
      apply flat_map_ext. intros e. apply entry_messages_global.
    + now rewrite <- app_assoc.
Qed.

(** The whole effect of [create_pdf]: the world after the loop over the
    pages, and then the document written and reported, or the exception
    of [pdf.output]. *)
Lemma create_pdf_loop (image_data : dict) (w : world) :
  for_each (page_starts image_data) (process_page env image_data)
           {| disk := disk w; stdout := stdout w; pdf := [] |}
  = (Ok tt,
     {| disk := fold_left (fun d e => entry_disk env 0 e d) (enumerate image_data) (disk w);
        stdout := stdout w ++ flat_map (entry_messages env 0) (enumerate image_data);
        pdf := map (rendered_page env image_data) (page_starts image_data) |}).
Proof. rewrite process_pages_world, pages_partition. reflexivity. Qed.

Lemma create_pdf_effect (image_data : dict) (output_pdf : string) (w : world) :
  create_pdf env image_data output_pdf w
  = match image_data with
    | [] => (Ok tt, {| disk := disk w; stdout := stdout w ++ [Print_no_valid_images];
                       pdf := [] |})
    | _ :: _ =>
        match output_error env output_pdf with
        | None =>
            (Ok tt,
             {| disk := disk_write output_pdf
                          (Pdf_file (map (rendered_page env image_data)
                                         (page_starts image_data)))
                          (fold_left (fun d e => entry_disk env 0 e d)
                                     (enumerate image_data) (disk w));
                stdout := stdout w
                          ++ flat_map (entry_messages env 0) (enumerate image_data)
                          ++ [Print_pdf_saved output_pdf];
                pdf := map (rendered_page env image_data) (page_starts image_data) |})
        | Some e =>
            (Raise e,
             {| disk := fold_left (fun d e => entry_disk env 0 e d)
                                  (enumerate image_data) (disk w);
                stdout := stdout w
                          ++ flat_map (entry_messages env 0) (enumerate image_data);
                pdf := map (rendered_page env image_data) (page_starts image_data) |})
        end
    end.
Proof.
  destruct image_data as [|entry rest]; [reflexivity|].
  set (l := entry :: rest).
  assert (Hpos : 0 < length (map (rendered_page env l) (page_starts l))).
  { rewrite length_map, length_page_starts. apply Nat.div_str_pos.
    unfold l. cbn [length]. lia. }
  apply Nat.ltb_lt in Hpos.
  unfold create_pdf. unfold bind at 1. unfold new_FPDF. unfold bind at 1.
  rewrite create_pdf_loop.
  unfold bind, pdf_pages, pdf_output, print. cbn [pdf stdout disk].
  rewrite Hpos. destruct (output_error env output_pdf); cbn [pdf stdout disk].
  - reflexivity.
  - now rewrite <- app_assoc.
Qed.

Lemma create_pdf_effect_nonempty (image_data : dict) (output_pdf : string) (w : world) :
  image_data <> [] ->
  create_pdf env image_data output_pdf w
  = match output_error env output_pdf with
    | None =>
        (Ok tt,
         {| disk := disk_write output_pdf
                      (Pdf_file (map (rendered_page env image_data)
                                     (page_starts image_data)))
                      (fold_left (fun d e => entry_disk env 0 e d)
                                 (enumerate image_data) (disk w));
            stdout := stdout w
                      ++ flat_map (entry_messages env 0) (enumerate image_data)
                      ++ [Print_pdf_saved output_pdf];
            pdf := map (rendered_page env image_data) (page_starts image_data) |})
    | Some e =>
        (Raise e,
         {| disk := fold_left (fun d e => entry_disk env 0 e d)
                              (enumerate image_data) (disk w);
            stdout := stdout w
                      ++ flat_map (entry_messages env 0) (enumerate image_data);
            pdf := map (rendered_page env image_data) (page_starts image_data) |})
    end.
Proof.
  intros Hne. rewrite create_pdf_effect.
  destruct image_data; [now elim Hne | reflexivity].
Qed.

End ComposerFacts.
(** ** Claims on the roster extractor *)

(** C5: the roster has no value from a row with index below 7, whatever
    those rows hold: two sheets that agree from row 7 on give the same
    roster, which is made of the data rows alone.  A data row whose
    column-0 cell is falsy adds nothing; the cell ["12345.0"] adds
    ["12345"] and the cell ["  98765  "] adds ["98765"]. *)
Theorem roster_skips_header_and_normalizes (sheet : Sheet) :
  0 < ncols sheet ->
  (forall sheet', 0 < ncols sheet' ->
     skipn 7 (sheet_rows sheet') = skipn 7 (sheet_rows sheet) ->
     get_student_numbers sheet' = get_student_numbers sheet)
  /\ get_student_numbers sheet = Ok (flat_map row_numbers (skipn 7 (sheet_rows sheet)))
  /\ (forall row, truthy (col0 row) = false -> row_numbers row = [])
  /\ (forall row, col0 row = Text "12345.0" -> row_numbers row = ["12345"])
  /\ (forall row, col0 row = Text "  98765  " -> row_numbers row = ["98765"])
  /\ normalize "12345.0" = "12345"
  /\ normalize "  98765  " = "98765".
Proof.
  intros Hc. repeat split.
  - intros sheet' Hc' Hrows.
    rewrite !get_student_numbers_rows by assumption. now rewrite Hrows.
  - now apply get_student_numbers_rows.
  - intros row Hfalsy. unfold row_numbers. now rewrite Hfalsy.
  - intros row Hcell. unfold row_numbers. now rewrite Hcell.
  - intros row Hcell. unfold row_numbers. now rewrite Hcell.
Qed.

Lemma roster_skips_header_and_normalizes_witness :
  0 < ncols sample_sheet /\
  get_student_numbers sample_sheet = Ok ["12345"; "98765"].
Proof.
  split; [vm_compute; lia|].
  exact (proj1 (proj2 (roster_skips_header_and_normalizes sample_sheet
                         (Nat.lt_0_succ 1)))).
Defined.

(** C4: the guard of line 37 is meant to keep empty numbers out of the
    roster, but it tests the cell before it is stripped: a cell of
    blanks is truthy, so its row is kept, and it normalises to the empty
    string, which the roster then holds. *)
Theorem roster_may_hold_empty_string :
  cell_value blank_cell_sheet 7 0 = Ok (Text " ")
  /\ truthy (Text " ") = true
  /\ normalize (str (Text " ")) = ""
  /\ get_student_numbers blank_cell_sheet = Ok [""]
  /\ ~ (forall numbers, get_student_numbers blank_cell_sheet = Ok numbers ->
        forall s, In s numbers -> s <> "").
Proof.
  split; [reflexivity|]. split; [reflexivity|]. split; [reflexivity|].
  split; [reflexivity|].
  intros H. apply (H [""] eq_refl ""); [now left | reflexivity].
Qed.

(** X24: what the roster does hold: exactly the normalised texts of the
    truthy column-0 cells of the rows from index 7 on (a row is dropped
    when, and only when, its raw cell is falsy), and a normalised text is
    non-empty whenever the cell text has a character other than
    whitespace, ['.'] and ['0']. *)
Theorem roster_holds_normalized_truthy_cells (sheet : Sheet) :
  0 < ncols sheet ->
  exists numbers,
    get_student_numbers sheet = Ok numbers
    /\ (forall s, In s numbers <->
          exists r row, 7 <= r /\ nth_error (sheet_rows sheet) r = Some row
                        /\ truthy (col0 row) = true
                        /\ s = normalize (str (col0 row)))
    /\ (forall text c, Py.In_str c text -> Py.isspace c = false ->
          c <> "."%char -> c <> "0"%char -> normalize text <> "").
Proof.
  intros Hc. exists (flat_map row_numbers (skipn 7 (sheet_rows sheet))).
  split; [now apply get_student_numbers_rows|]. split.
  - intros s. rewrite in_flat_map. split.
    + intros [row [Hrow Hs]]. apply In_skipn in Hrow as [r [Hr Hnth]].
      exists r, row. unfold row_numbers in Hs.
      destruct (truthy (col0 row)); [|contradiction].
      destruct Hs as [<-|[]]. auto.
    + intros [r [row [Hr [Hnth [Htruthy ->]]]]]. exists row. split.
      * apply In_skipn. eauto.
      * unfold row_numbers. rewrite Htruthy. now left.
  - intros text c Hin Hsp Hdot Hzero.
    eapply In_str_nonempty, normalize_keeps; eassumption.
Qed.

Lemma roster_holds_normalized_truthy_cells_witness :
  0 < ncols sample_sheet /\
  exists numbers, get_student_numbers sample_sheet = Ok numbers /\ In "98765" numbers.
Proof.
  split; [vm_compute; lia|].
  destruct (roster_holds_normalized_truthy_cells sample_sheet (Nat.lt_0_succ 1))
    as [numbers [Hrun [Hin _]]].
  exists numbers. split; [exact Hrun|].
  apply Hin. exists 9, [Text "  98765  "; Text "John Roe"].
  repeat split. vm_compute. lia.
Defined.

(** ** Archive matcher *)

Lemma keys_dict_set (k k' : string) (v : bytes) (d : dict) :
  In k' (keys (dict_set k v d)) <-> k' = k \/ In k' (keys d).
Proof.
  induction d as [|[k0 v0] d IH]; cbn [dict_set].
  - cbn. intuition.
  - destruct (String.eqb k0 k) eqn:E.
    + apply String.eqb_eq in E. subst k0. cbn. intuition.
    + cbn [keys map fst In] in *. fold (keys (dict_set k v d)). rewrite IH. intuition.
Qed.

Lemma In_dict_set (k k' : string) (v v' : bytes) (d : dict) :
  In (k', v') (dict_set k v d) -> (k' = k /\ v' = v) \/ In (k', v') d.
Proof.
  induction d as [|[k0 v0] d IH]; cbn [dict_set].
  - intros [H|[]]. inversion H. auto.
  - destruct (String.eqb k0 k) eqn:E.
    + apply String.eqb_eq in E. subst k0.
      intros [H|H]; [inversion H; auto | right; now right].
    + intros [H|H]; [right; now left|].
      destruct (IH H) as [?|?]; [now left | right; now right].
Qed.

Section MatcherFacts.

Variable z : ZipFile.

Lemma keys_store (matched_files : list string) (images : dict) (k : string) :
  In k (keys (store z images matched_files)) <-> In k matched_files \/ In k (keys images).
Proof.
  revert images. induction matched_files as [|f fs IH]; intros images; cbn.
  - intuition.
  - fold (store z (dict_set f (zip_read z f) images) fs).
    rewrite IH, keys_dict_set. intuition.
Qed.

Lemma values_store (matched_files : list string) (images : dict) :
  (forall k v, In (k, v) images -> v = zip_read z k) ->
  forall k v, In (k, v) (store z images matched_files) -> v = zip_read z k.
Proof.
  revert images. induction matched_files as [|f fs IH]; intros images Hinv; cbn.
  - exact Hinv.
  - fold (store z (dict_set f (zip_read z f) images) fs). apply IH.
    intros k v Hin. apply In_dict_set in Hin as [[-> ->]|Hin]; auto.
Qed.

Lemma keys_matcher_loop (student_numbers : list string) (images : dict) (k : string) :
  In k (keys (fold_left (fun images num => store z images (filter (matches num) (namelist z)))
                        student_numbers images))
  <-> (In k (namelist z) /\ exists num, In num student_numbers /\ matches num k = true)
      \/ In k (keys images).
Proof.
  revert images. induction student_numbers as [|num nums IH]; intros images; cbn [fold_left].
  - split; [auto|]. intros [[_ [num [[] _]]]|H]. exact H.
  - rewrite IH, keys_store, filter_In. split.
    + intros [[Hk [n [Hn Hm]]]|[[Hk Hm]|Hk]].
      * left. split; [assumption|]. exists n. split; [now right | assumption].
      * left. split; [assumption|]. exists num. split; [now left | assumption].
      * now right.
    + intros [[Hk [n [[<-|Hn] Hm]]]|Hk].
      * right. left. auto.
      * left. split; [assumption|]. exists n. auto.
      * right. now right.
Qed.

Lemma values_matcher_loop (student_numbers : list string) (images : dict) :
  (forall k v, In (k, v) images -> v = zip_read z k) ->
  forall k v,
    In (k, v) (fold_left (fun images num => store z images (filter (matches num) (namelist z)))
                         student_numbers images) ->
    v = zip_read z k.
Proof.
  revert images. induction student_numbers as [|num nums IH]; intros images Hinv; cbn [fold_left].
  - exact Hinv.
  - apply IH. now apply values_store.
Qed.

Lemma keys_find_matching_images (student_numbers : list string) (k : string) :
  In k (keys (find_matching_images student_numbers z))
  <-> In k (namelist z) /\ exists num, In num student_numbers /\ matches num k = true.
Proof.
  unfold find_matching_images.
  rewrite keys_matcher_loop. cbn. intuition.
Qed.

Lemma values_find_matching_images (student_numbers : list string) (k : string) (v : bytes) :
  In (k, v) (find_matching_images student_numbers z) -> v = zip_read z k.
Proof.
  unfold find_matching_images.
  apply values_matcher_loop. intros ? ? [].
Qed.

End MatcherFacts.

Lemma contains_empty (f : string) : Py.contains "" f = true.
Proof. destruct f; reflexivity. Qed.

(** C6, as stated, fails: with two numbers in the roster an entry that
    holds the first is in the mapping although the second is not a
    substring of its name. *)
Lemma entry_matched_by_another_number :
  ~ (forall f S, In f (namelist sample_archive) -> In S ["111"; "222"] ->
       (In f (keys (find_matching_images ["111"; "222"] sample_archive))
        <-> Py.contains S f = true
            /\ Py.endswith_any [".png"; ".jpg"; ".jpeg"] (Py.lower f) = true)).
Proof.
  intros H.
  assert (Hin : In "A(111).jpg" (keys (find_matching_images ["111"; "222"] sample_archive)))
    by (vm_compute; auto).
  apply (H "A(111).jpg" "222") in Hin; [|vm_compute; auto|vm_compute; auto].
  destruct Hin as [Hsub _]. vm_compute in Hsub. discriminate.
Qed.

(** C6, amended: an archive entry is in the result mapping if and only if
    some StudentNumber of the roster is a substring of its name (case
    kept) and the name ends, case ignored, in [.png], [.jpg] or [.jpeg];
    for a roster of one number [S], if and only if [S] is that
    substring.  The entry is stored with its content. *)
Theorem matched_iff_some_number_in_name (student_numbers : list string) (z : ZipFile)
        (f : string) :
  (In f (keys (find_matching_images student_numbers z))
   <-> In f (namelist z)
       /\ exists S, In S student_numbers
                    /\ Py.contains S f = true
                    /\ Py.endswith_any [".png"; ".jpg"; ".jpeg"] (Py.lower f) = true)
  /\ (forall S,
        In f (keys (find_matching_images [S] z))
        <-> In f (namelist z)
            /\ Py.contains S f = true
            /\ Py.endswith_any [".png"; ".jpg"; ".jpeg"] (Py.lower f) = true)
  /\ (forall v, In (f, v) (find_matching_images student_numbers z) -> v = zip_read z f).
Proof.
  assert (Hm : forall S, matches S f = true <->
                 Py.contains S f = true
                 /\ Py.endswith_any [".png"; ".jpg"; ".jpeg"] (Py.lower f) = true).
  { intros S. unfold matches. apply andb_true_iff. }
  split; [|split].
  - rewrite keys_find_matching_images. split.
    + intros [Hf [S [HS HSm]]]. split; [assumption|].
      exists S. split; [assumption|]. now apply Hm.
    + intros [Hf [S [HS HSm]]]. split; [assumption|].
      exists S. split; [assumption|]. now apply Hm.
  - intros S. rewrite keys_find_matching_images. split.
    + intros [Hf [S' [[<-|[]] HSm]]]. split; [assumption|]. now apply Hm.
    + intros [Hf HSm]. split; [assumption|].
      exists S. split; [now left|]. now apply Hm.
  - intros v. apply values_find_matching_images.
Qed.

(** C9: when the roster holds the empty string, every archive entry
    whose name ends, case ignored, in [.png], [.jpg] or [.jpeg] is in the
    result mapping with its content, since the empty string is a
    substring of every name. *)
Theorem empty_number_matches_every_image (student_numbers : list string) (z : ZipFile) :
  In "" student_numbers ->
  (forall f, Py.contains "" f = true)
  /\ (forall f, In f (namelist z) ->
        Py.endswith_any [".png"; ".jpg"; ".jpeg"] (Py.lower f) = true ->
        In f (keys (find_matching_images student_numbers z))
        /\ In (f, zip_read z f) (find_matching_images student_numbers z)).
Proof.
  intros Hempty. split; [exact contains_empty|].
  intros f Hf Hext.
  assert (Hkey : In f (keys (find_matching_images student_numbers z))).
  { apply keys_find_matching_images. split; [assumption|].
    exists "". split; [assumption|]. unfold matches. now rewrite contains_empty, Hext. }
  split; [assumption|].
  unfold keys in Hkey. apply in_map_iff in Hkey as [[k v] [Hk Hin]].
  cbn in Hk. subst k.
  now rewrite <- (values_find_matching_images z student_numbers f v Hin).
Qed.

Lemma empty_number_matches_every_image_witness :
  In "" ["111"; ""] /\
  In "C(999).jpeg" (keys (find_matching_images ["111"; ""] sample_archive)).
Proof.
  split; [right; now left|].
  refine (proj1 (proj2 (empty_number_matches_every_image ["111"; ""] sample_archive _)
                       "C(999).jpeg" _ _)).
  - right. now left.
  - vm_compute. tauto.
  - vm_compute. reflexivity.
Defined.

(** ** Grid composer: pages, slots and positions *)

Lemma nth_error_slice {A} (l : list A) (i n j : nat) :
  nth_error (slice i n l) j = if j <? n then nth_error l (i + j) else None.
Proof. unfold slice. now rewrite nth_error_firstn, nth_error_skipn. Qed.















Lemma Forall_slice {A} (P : A -> Prop) (i n : nat) (l : list A) :
  Forall P l -> Forall P (slice i n l).
Proof.
  intros Hall. apply Forall_forall. intros x Hin.
  apply In_nth_error in Hin as [j Hj]. rewrite nth_error_slice in Hj.
  destruct (j <? n); [|discriminate].
  rewrite Forall_forall in Hall. eapply Hall, nth_error_In, Hj.
Qed.


(** ** Claims on the grid composer *)







(** ** Claims on the sheet namer and the loop over the sheets *)

Lemma append_cons_nonempty (a b : string) (c : ascii) : (a ++ String c b)%string <> "".
Proof. destruct a; discriminate. Qed.

Lemma remove_char_removes (c : ascii) (s : string) : ~ Py.In_str c (Py.remove_char c s).
Proof.
  induction s as [|a s IH]; cbn; [tauto|].
  destruct (Ascii.eqb a c) eqn:E; [assumption|].
  cbn. intros [->|H]; [|auto]. now rewrite Ascii.eqb_refl in E.
Qed.

Lemma extract_pdf_name_shape (cell_value : string) :
  (extract_pdf_name cell_value = "Unknown"
   /\ forall part0 part1 rest, Py.split "," cell_value <> part0 :: part1 :: rest)
  \/ exists part0 part1 rest,
       Py.split "," cell_value = part0 :: part1 :: rest
       /\ extract_pdf_name cell_value
          = (Py.strip part0 ++ "_" ++ Py.remove_char ":" (Py.strip part1))%string.
Proof.
  unfold extract_pdf_name.
  destruct (Py.split "," cell_value) as [|part0 [|part1 rest]].
  - left. split; [reflexivity | discriminate].
  - left. split; [reflexivity | discriminate].
  - right. exists part0, part1, rest. split; reflexivity.
Qed.

Lemma extract_pdf_name_nonempty (cell_value : string) : extract_pdf_name cell_value <> "".
Proof.
  destruct (extract_pdf_name_shape cell_value) as [[-> _]|[p0 [p1 [rest [_ ->]]]]].
  - discriminate.
  - apply append_cons_nonempty.
Qed.

Section LoopFacts.

Variable env : Env.

Lemma entry_messages_no_warning (i : nat) (entry : nat * (string * bytes)) (m : message) :
  In m (entry_messages env i entry) -> is_warning m = false.
Proof.
  destruct entry as [j [filename img_bytes]]. unfold entry_messages.
  destruct (decodable env img_bytes);
    [destruct (save_error env img_bytes (temp_path (i + j)));
     [|destruct (Py.rsplit1 _ _)]|];
    cbn; intros H; intuition (subst; reflexivity).
Qed.

Lemma create_pdf_no_warning (image_data : dict) (output_pdf : string) :
  prints_no_warning (create_pdf env image_data output_pdf).
Proof.
  intros w. rewrite create_pdf_effect.
  assert (Herr : forall m, In m (flat_map (entry_messages env 0) (enumerate image_data)) ->
                   is_warning m = false).
  { intros m Hm. apply in_flat_map in Hm as [entry [_ Hm]].
    eapply entry_messages_no_warning; eassumption. }
  destruct image_data as [|entry rest] eqn:E.
  - cbn [snd stdout]. eexists. split; [reflexivity|].
    intros m [<-|[]]. reflexivity.
  - rewrite <- E in *. destruct (output_error env output_pdf); cbn [snd stdout];
      eexists; (split; [reflexivity|]); intros m Hm.
    + auto.
    + apply in_app_or in Hm as [Hm|[<-|[]]]; [auto | reflexivity].
Qed.

Lemma process_sheet_no_warning (zip_file : ZipFile) (sheet : Sheet) :
  prints_no_warning (process_sheet env zip_file sheet).
Proof.
  intros w. unfold process_sheet, bind, lift, print, raise.
  destruct (get_student_numbers sheet) as [student_numbers|e]; cbn [snd stdout].
  2:{ exists []. split; [now rewrite app_nil_r | intros m []]. }
  destruct (cell_value sheet 2 1) as [[b3|x]|e]; cbn [snd stdout].
  - destruct (String.eqb (extract_pdf_name b3) "") eqn:E.
    { apply String.eqb_eq in E. now apply extract_pdf_name_nonempty in E. }
    destruct (find_matching_images student_numbers zip_file) as [|entry images].
    + cbn [snd stdout]. eexists. rewrite <- app_assoc. split; [reflexivity|].
      cbn. intros m H. intuition (subst; reflexivity).
    + match goal with |- context [create_pdf env ?im ?out ?w0] =>
        destruct (create_pdf_no_warning im out w0) as [printed [Hout Hno]] end.
      rewrite Hout. cbn [stdout]. eexists. rewrite <- app_assoc.
      split; [reflexivity|]. cbn. intros m [<-|H]; [reflexivity | auto].
  - eexists. split; [reflexivity|]. cbn. intros m H. intuition (subst; reflexivity).
  - eexists. split; [reflexivity|]. cbn. intros m H. intuition (subst; reflexivity).
Qed.

Lemma main_no_warning (workbook : list Sheet) (zip_file : ZipFile) :
  prints_no_warning (main env workbook zip_file).
Proof.
  unfold main. induction workbook as [|sheet sheets IH]; intros w.
  - exists []. cbn. split; [now rewrite app_nil_r | intros m []].
  - cbn [for_each]. unfold bind.
    destruct (process_sheet_no_warning zip_file sheet w) as [printed [Hout Hno]].
    destruct (process_sheet env zip_file sheet w) as [[[]|e] w1]; cbn [snd] in *.
    + destruct (IH w1) as [printed' [Hout' Hno']].
      exists (printed ++ printed'). rewrite Hout', Hout, app_assoc.
      split; [reflexivity|]. intros m Hm. apply in_app_or in Hm as [Hm|Hm]; auto.
    + exists printed. auto.
Qed.

End LoopFacts.

(** C10: for every input string [extract_pdf_name] returns a non-empty
    string, either the literal ["Unknown"] or the day, an underscore and
    the time without its colons; hence the test [not pdf_name] of the
    loop over the sheets is false on every sheet and its warning is never
    printed. *)
Theorem extract_pdf_name_never_empty (cell_value : string) :
  extract_pdf_name cell_value <> ""
  /\ String.eqb (extract_pdf_name cell_value) "" = false
  /\ (extract_pdf_name cell_value = "Unknown"
      \/ exists part0 part1 rest,
           Py.split "," cell_value = part0 :: part1 :: rest
           /\ extract_pdf_name cell_value
              = (Py.strip part0 ++ "_" ++ Py.remove_char ":" (Py.strip part1))%string
           /\ ~ Py.In_str ":" (Py.remove_char ":" (Py.strip part1)))
  /\ (forall env workbook zip_file w,
        exists printed,
          stdout (snd (main env workbook zip_file w)) = stdout w ++ printed
          /\ existsb is_warning printed = false).
Proof.
  split; [apply extract_pdf_name_nonempty|].
  split; [apply String.eqb_neq, extract_pdf_name_nonempty|].
  split.
  - destruct (extract_pdf_name_shape cell_value) as [[H _]|[p0 [p1 [rest [Hs H]]]]].
    + now left.
    + right. exists p0, p1, rest. repeat split; try assumption.
      apply remove_char_removes.
  - intros env workbook zip_file w.
    destruct (main_no_warning env workbook zip_file w) as [printed [Hout Hno]].
    exists printed. split; [assumption|].
    destruct (existsb is_warning printed) eqn:E; [|reflexivity].
    apply existsb_exists in E as [m [Hm Hw]]. rewrite (Hno m Hm) in Hw. discriminate.
Qed.

(** ** Where the script departs from what is claimed of it *)

(** C1: a sheet whose cell B3 has no comma gets the name ["Unknown"],
    which is not an empty string, so the test [not pdf_name] does not
    hold for it: no warning is printed, the sheet is not skipped and its
    PDF is written as [Unknown.pdf]. *)
Theorem unnamed_sheet_is_not_skipped :
  cell_value unnamed_sheet 2 1 = Ok (Text "Tutorial 3")
  /\ extract_pdf_name "Tutorial 3" = "Unknown"
  /\ stdout (snd (main sample_env [unnamed_sheet] sample_archive empty_world))
     = [Print_roster ["111"]; Print_pdf_saved "Unknown.pdf"]
  /\ existsb is_warning
       (stdout (snd (main sample_env [unnamed_sheet] sample_archive empty_world))) = false
  /\ on_disk "Unknown.pdf"
       (disk (snd (main sample_env [unnamed_sheet] sample_archive empty_world))) = true.
Proof. repeat split; vm_compute; reflexivity. Qed.

(** C2: with one entry whose blob does not decode no image is placed,
    yet the page was added before the attempt, so [len(pdf.pages)] is 1
    and a document of one blank page is written and reported as saved. *)
Theorem blank_document_is_written :
  jpeg_magic [] = false
  /\ create_pdf sample_env [("A(111).jpg", [])] "out.pdf" empty_world
     = (Ok tt,
        {| disk := [("out.pdf", Pdf_file [[]])];
           stdout := [Print_error_processing "A(111).jpg" UnidentifiedImageError;
                      Print_pdf_saved "out.pdf"];
           pdf := [[]] |})
  /\ map count_images
       (pdf (snd (create_pdf sample_env [("A(111).jpg", [])] "out.pdf" empty_world)))
     = [0].
Proof. repeat split; vm_compute; reflexivity. Qed.

(** C3: [os.remove] is the last statement of the [try] block, so a
    placement that fails after [img.save] keeps its temporary file: with
    a label without ['('] the file [temp_0.jpg] is still on disk when
    [create_pdf] returns, whereas a well-formed label leaves none. *)
Theorem temporary_file_left_behind :
  fst (create_pdf sample_env [("NoParen.jpg", jpeg_blob)] "out.pdf" empty_world) = Ok tt
  /\ on_disk (temp_path 0)
       (disk (snd (create_pdf sample_env [("NoParen.jpg", jpeg_blob)] "out.pdf"
                              empty_world))) = true
  /\ on_disk (temp_path 0)
       (disk (snd (create_pdf sample_env [("Jane Doe(12345678).jpg", jpeg_blob)]
                              "out.pdf" empty_world))) = false.
Proof. repeat split; vm_compute; reflexivity. Qed.

(** ** Worked examples *)

Example normalize_keeps_integer_zeros : normalize "12300.0" = "12300".
Proof. reflexivity. Qed.

Example extract_pdf_name_tutorial :
  extract_pdf_name "Monday, 14:00, Tutorial 3" = "Monday_1400".
Proof. reflexivity. Qed.

Example splitext_headshot :
  Py.splitext "Jane Doe(12345678).jpg" = ("Jane Doe(12345678)", ".jpg").
Proof. reflexivity. Qed.

Example roster_of_sample_sheet :
  get_student_numbers sample_sheet = Ok ["12345"; "98765"].
Proof. reflexivity. Qed.

Example matches_of_sample_archive :
  keys (find_matching_images ["111"; "222"] sample_archive) = ["A(111).jpg"; "B(222).PNG"].
Proof. reflexivity. Qed.

(** * Further properties of the script *)

(** ** More on strings *)

Lemma In_str_app (c : ascii) (a b : string) :
  Py.In_str c (a ++ b)%string <-> Py.In_str c a \/ Py.In_str c b.
Proof. induction a as [|x a IH]; cbn; [tauto | rewrite IH; tauto]. Qed.

Lemma append_assoc_str (a b c : string) :
  ((a ++ b) ++ c)%string = (a ++ (b ++ c))%string.
Proof. induction a as [|x a IH]; cbn; [reflexivity | now rewrite IH]. Qed.

Lemma append_inv_tail (a b t : string) : (a ++ t)%string = (b ++ t)%string -> a = b.
Proof.
  assert (Hlen : forall u v : string, String.length (u ++ v)%string
                                      = String.length u + String.length v).
  { intros u v. induction u as [|x u IH]; cbn; [reflexivity | now rewrite IH]. }
  revert b. induction a as [|x a IH]; intros [|y b] H; cbn in H.
  - reflexivity.
  - apply (f_equal String.length) in H. cbn in H. rewrite Hlen in H. lia.
  - apply (f_equal String.length) in H. cbn in H. rewrite Hlen in H. lia.
  - inversion H. f_equal. now apply IH.
Qed.

Lemma all_chars_In (p : ascii -> bool) (s : string) :
  Py.all_chars p s = true <-> forall c, Py.In_str c s -> p c = true.
Proof.
  induction s as [|x s IH]; cbn.
  - split; [intros _ c [] | reflexivity].
  - rewrite andb_true_iff, IH. split.
    + intros [Hx Hs] c [<-|Hc]; auto.
    + intros H. split; [apply H; now left | intros c Hc; apply H; now right].
Qed.

Lemma lstrip_id (p : ascii -> bool) (s : string) :
  (forall c, Py.In_str c s -> p c = false) -> Py.lstrip p s = s.
Proof.
  destruct s as [|x s]; cbn; [reflexivity|].
  intros H. now rewrite (H x (or_introl eq_refl)).
Qed.

Lemma rstrip_id (p : ascii -> bool) (s : string) :
  (forall c, Py.In_str c s -> p c = false) -> Py.rstrip p s = s.
Proof.
  induction s as [|x s IH]; cbn; [reflexivity|].
  intros H. rewrite IH by (intros c Hc; apply H; now right).
  destruct s; [now rewrite (H x (or_introl eq_refl)) | reflexivity].
Qed.

Lemma rstrip_all (p : ascii -> bool) (z : string) :
  Py.all_chars p z = true -> Py.rstrip p z = "".
Proof.
  induction z as [|x z IH]; cbn; [reflexivity|].
  intros H. apply andb_true_iff in H as [Hx Hz]. now rewrite (IH Hz), Hx.
Qed.

Lemma rstrip_app_all (p : ascii -> bool) (s z : string) :
  Py.all_chars p z = true -> Py.rstrip p (s ++ z) = Py.rstrip p s.
Proof.
  intros Hz. induction s as [|x s IH]; cbn.
  - now apply rstrip_all.
  - now rewrite IH.
Qed.

Lemma rstrip_app_keep (p : ascii -> bool) (s : string) (c : ascii) :
  p c = false -> Py.rstrip p (s ++ String c "") = (s ++ String c "")%string.
Proof.
  intros Hc. induction s as [|x s IH]; cbn.
  - now rewrite Hc.
  - rewrite IH. destruct s; reflexivity.
Qed.

Lemma contains_char_In (c : ascii) (s : string) :
  Py.contains (String c "") s = true <-> Py.In_str c s.
Proof.
  induction s as [|x s IH]; cbn.
  - split; [discriminate | intros []].
  - rewrite orb_true_iff, andb_true_r, IH, Ascii.eqb_eq.
    split; (intros [H|H]; [left; now symmetry | now right]).
Qed.

Lemma rsplit1_None (c : ascii) (s : string) :
  Py.rsplit1 c s = None <-> ~ Py.In_str c s.
Proof.
  induction s as [|x s IH]; cbn.
  - tauto.
  - destruct (Py.rsplit1 c s) as [[a b]|].
    + split; [discriminate|]. intros H. exfalso.
      assert (Hs : ~ Py.In_str c s) by tauto. apply IH in Hs. discriminate.
    + destruct (Ascii.eqb x c) eqn:E.
      * apply Ascii.eqb_eq in E. split; [discriminate | tauto].
      * apply Ascii.eqb_neq in E. split; [|reflexivity].
        intros _ [H|H]; [contradiction|]. now apply IH in H.
Qed.

Lemma rsplit1_Some (c : ascii) (s a b : string) :
  Py.rsplit1 c s = Some (a, b) -> s = (a ++ String c b)%string /\ ~ Py.In_str c b.
Proof.
  revert a. induction s as [|x s IH]; cbn; intros a H; [discriminate|].
  destruct (Py.rsplit1 c s) as [[a' b']|] eqn:E.
  - inversion H. subst. destruct (IH a' eq_refl) as [-> Hb]. auto.
  - destruct (Ascii.eqb x c) eqn:Ex; [|discriminate].
    apply Ascii.eqb_eq in Ex. inversion H. subst.
    split; [reflexivity | now apply rsplit1_None].
Qed.

Lemma rsplit1_app_sep (c : ascii) (a b : string) :
  ~ Py.In_str c b -> Py.rsplit1 c (a ++ String c b) = Some (a, b).
Proof.
  intros Hb. induction a as [|x a IH]; cbn.
  - apply rsplit1_None in Hb. now rewrite Hb, Ascii.eqb_refl.
  - now rewrite IH.
Qed.

Lemma split_not_nil (c : ascii) (s : string) : Py.split c s <> [].
Proof.
  induction s as [|x s IH]; cbn; [discriminate|].
  destruct (Ascii.eqb x c); [discriminate|].
  destruct (Py.split c s); discriminate.
Qed.

Lemma split_no_sep (c : ascii) (s : string) :
  ~ Py.In_str c s -> Py.split c s = [s].
Proof.
  induction s as [|x s IH]; cbn; [reflexivity|].
  intros H. destruct (Ascii.eqb x c) eqn:E.
  - apply Ascii.eqb_eq in E. tauto.
  - rewrite IH by tauto. reflexivity.
Qed.

Lemma split_app_sep (c : ascii) (a s : string) :
  ~ Py.In_str c a -> Py.split c (a ++ String c s) = a :: Py.split c s.
Proof.
  induction a as [|x a IH]; cbn; intros H.
  - now rewrite Ascii.eqb_refl.
  - destruct (Ascii.eqb x c) eqn:E.
    + apply Ascii.eqb_eq in E. tauto.
    + rewrite IH by tauto. reflexivity.
Qed.

Lemma In_str_first (c : ascii) (s : string) :
  Py.In_str c s -> exists a b, s = (a ++ String c b)%string /\ ~ Py.In_str c a.
Proof.
  induction s as [|x s IH]; cbn; [intros []|].
  intros H. destruct (Ascii.eqb x c) eqn:E.
  - apply Ascii.eqb_eq in E. subst. exists "", s. split; [reflexivity | intros []].
  - apply Ascii.eqb_neq in E. destruct H as [H|H]; [contradiction|].
    destruct (IH H) as [a [b [-> Ha]]]. exists (String x a), b.
    split; [reflexivity|]. cbn. tauto.
Qed.

(** ** Roster extractor: order, size and the integer part of a number *)

Lemma flat_map_row_numbers (rows : list (list cell)) :
  flat_map row_numbers rows
  = map (fun row => normalize (str (col0 row)))
        (filter (fun row => truthy (col0 row)) rows).
Proof.
  induction rows as [|row rows IH]; cbn [flat_map filter map]; [reflexivity|].
  unfold row_numbers at 1. destruct (truthy (col0 row)); cbn; now rewrite IH.
Qed.

Lemma filter_length_bound {A} (f : A -> bool) (l : list A) :
  length (filter f l) <= length l.
Proof.
  induction l as [|x l IH]; cbn; [lia|]. destruct (f x); cbn; lia.
Qed.

(** X1: on every sheet with a column, and on every sheet of at most
    seven rows, the extractor returns one number per truthy column-0
    cell from row 7 on, in row order and with duplicates kept, so at
    most [nrows - 7] numbers. *)
Theorem roster_one_number_per_truthy_cell (sheet : Sheet) :
  nrows sheet <= 7 \/ 0 < ncols sheet ->
  exists numbers,
    get_student_numbers sheet = Ok numbers
    /\ numbers = map (fun row => normalize (str (col0 row)))
                     (filter (fun row => truthy (col0 row)) (skipn 7 (sheet_rows sheet)))
    /\ length numbers <= nrows sheet - 7.
Proof.
  intros Hwf. eexists. split; [|split; [reflexivity|]].
  - destruct Hwf as [Hshort|Hcols].
    + unfold get_student_numbers, range.
      replace (nrows sheet - 7) with 0 by lia. cbn [seq for_fold].
      rewrite skipn_all2 by (unfold nrows in Hshort; lia). reflexivity.
    + rewrite get_student_numbers_rows by assumption.
      now rewrite flat_map_row_numbers.
  - rewrite length_map. etransitivity; [apply filter_length_bound|].
    rewrite length_skipn. unfold nrows. lia.
Qed.

Lemma roster_one_number_per_truthy_cell_witness :
  (nrows sample_sheet <= 7 \/ 0 < ncols sample_sheet)
  /\ exists numbers, get_student_numbers sample_sheet = Ok numbers /\ length numbers <= 4.
Proof.
  assert (H : nrows sample_sheet <= 7 \/ 0 < ncols sample_sheet)
    by (right; apply Nat.lt_0_succ).
  split; [exact H|].
  destruct (roster_one_number_per_truthy_cell sample_sheet H) as [numbers [Hrun [_ Hlen]]].
  exists numbers. split; [exact Hrun | exact Hlen].
Defined.

Lemma plain_char_not_space (c : ascii) : plain_char c = true -> Py.isspace c = false.
Proof.
  unfold plain_char. intros H. apply andb_true_iff in H as [H _].
  now apply negb_true_iff in H.
Qed.

Lemma plain_char_not_dot (c : ascii) : plain_char c = true -> Ascii.eqb "." c = false.
Proof.
  unfold plain_char. intros H. apply andb_true_iff in H as [_ H].
  now apply negb_true_iff in H.
Qed.

(** X2: a text without blanks and dots is its own normal form, and a
    text made of such an integer part, a decimal point and any number of
    zeros normalises to the integer part: the zeros that end the integer
    part itself are never stripped. *)
Theorem normalize_keeps_integer_part (digits zeros : string) :
  Py.all_chars plain_char digits = true ->
  Py.all_chars (Ascii.eqb "0") zeros = true ->
  normalize digits = digits
  /\ normalize (digits ++ "." ++ zeros) = digits.
Proof.
  intros Hd Hz.
  rewrite all_chars_In in Hd. rewrite all_chars_In in Hz.
  assert (Hnodot : ~ Py.In_str "." digits).
  { intros H. apply Hd, plain_char_not_dot in H. discriminate. }
  split.
  - unfold normalize, Py.strip.
    rewrite lstrip_id, rstrip_id by (intros c Hc; apply plain_char_not_space; auto).
    destruct (Py.contains "." digits) eqn:E; [|reflexivity].
    apply contains_char_In in E. contradiction.
  - assert (Hsp : forall c, Py.In_str c (digits ++ "." ++ zeros)%string ->
                            Py.isspace c = false).
    { intros c Hc. apply In_str_app in Hc as [Hc|[<-|Hc]].
      - apply plain_char_not_space; auto.
      - reflexivity.
      - apply Hz in Hc. apply Ascii.eqb_eq in Hc. now subst. }
    unfold normalize, Py.strip. rewrite lstrip_id, rstrip_id by assumption.
    assert (E : Py.contains "." (digits ++ "." ++ zeros) = true).
    { apply contains_char_In, In_str_app. right. now left. }
    rewrite E. unfold Py.rstrip_char.
    change (digits ++ "." ++ zeros)%string with (digits ++ (String "." "" ++ zeros))%string.
    rewrite <- append_assoc_str.
    rewrite rstrip_app_all by (apply all_chars_In; assumption).
    rewrite rstrip_app_keep by reflexivity.
    rewrite rstrip_app_all by reflexivity.
    apply rstrip_id. intros c Hc.
    destruct (Ascii.eqb "." c) eqn:Ec; [|reflexivity].
    apply Ascii.eqb_eq in Ec. subst. contradiction.
Qed.

Lemma normalize_keeps_integer_part_witness :
  Py.all_chars plain_char "12300" = true
  /\ Py.all_chars (Ascii.eqb "0") "00" = true
  /\ normalize "12300.00" = "12300".
Proof.
  split; [reflexivity|]. split; [reflexivity|].
  exact (proj2 (normalize_keeps_integer_part "12300" "00" eq_refl eq_refl)).
Defined.

(** ** Sheet namer: the sentinel and the fields that count *)

(** X3: the sheet namer returns the sentinel ["Unknown"] exactly when the
    cell text holds no comma. *)
Theorem extract_pdf_name_unknown_iff_no_comma (cell_value : string) :
  extract_pdf_name cell_value = "Unknown" <-> ~ Py.In_str "," cell_value.
Proof.
  split.
  - intros Hname Hin.
    destruct (In_str_first _ _ Hin) as [a [b [-> Ha]]].
    unfold extract_pdf_name in Hname. rewrite split_app_sep in Hname by assumption.
    destruct (Py.split "," b) as [|part1 rest] eqn:E; [now apply split_not_nil in E|].
    assert (Hus : Py.In_str "_" "Unknown").
    { rewrite <- Hname. apply In_str_app. right. now left. }
    cbn in Hus. intuition discriminate.
  - intros H. unfold extract_pdf_name. now rewrite split_no_sep.
Qed.

(** X4: only the first two comma-separated fields count: for a day and a
    time without commas the name is the trimmed day, an underscore and
    the trimmed time without its colons, whatever follows a second
    comma. *)
Theorem extract_pdf_name_first_two_fields (day time rest : string) :
  ~ Py.In_str "," day -> ~ Py.In_str "," time ->
  extract_pdf_name (day ++ "," ++ time)
  = (Py.strip day ++ "_" ++ Py.remove_char ":" (Py.strip time))%string
  /\ extract_pdf_name (day ++ "," ++ time ++ "," ++ rest)
     = (Py.strip day ++ "_" ++ Py.remove_char ":" (Py.strip time))%string.
Proof.
  intros Hday Htime. unfold extract_pdf_name. split.
  - change (day ++ "," ++ time)%string with (day ++ String "," time)%string.
    rewrite split_app_sep by assumption. now rewrite split_no_sep.
  - change (day ++ "," ++ time ++ "," ++ rest)%string
      with (day ++ String "," (time ++ String "," rest))%string.
    rewrite split_app_sep by assumption. now rewrite split_app_sep.
Qed.

Lemma extract_pdf_name_first_two_fields_witness :
  ~ Py.In_str "," "Monday" /\ ~ Py.In_str "," " 14:00"
  /\ extract_pdf_name "Monday, 14:00, Tutorial 3" = "Monday_1400".
Proof.
  assert (Hday : ~ Py.In_str "," "Monday") by (cbn; intuition discriminate).
  assert (Htime : ~ Py.In_str "," " 14:00") by (cbn; intuition discriminate).
  split; [exact Hday|]. split; [exact Htime|].
  exact (proj2 (extract_pdf_name_first_two_fields "Monday" " 14:00" " Tutorial 3"
                  Hday Htime)).
Defined.

(** ** Archive matcher: what the mapping holds, and in which order *)

Lemma keys_dict_set_remember (k : string) (v : bytes) (d : dict) :
  keys (dict_set k v d) = remember (keys d) k.
Proof.
  induction d as [|[k0 v0] d IH]; [reflexivity|].
  cbn [dict_set]. unfold remember. cbn [keys map fst existsb].
  rewrite (String.eqb_sym k k0).
  destruct (String.eqb k0 k); cbn [orb]; [reflexivity|].
  cbn [keys map fst]. fold (keys (dict_set k v d)). rewrite IH. unfold remember.
  fold (keys d). destruct (existsb (String.eqb k) (keys d)); reflexivity.
Qed.

Lemma keys_store_remember (z : ZipFile) (matched_files : list string) (images : dict) :
  keys (store z images matched_files) = fold_left remember matched_files (keys images).
Proof.
  revert images. induction matched_files as [|f fs IH]; intros images; [reflexivity|].
  cbn [store fold_left]. fold (store z (dict_set f (zip_read z f) images) fs).
  now rewrite IH, keys_dict_set_remember.
Qed.

Lemma keys_matcher_remember (z : ZipFile) (student_numbers : list string) (images : dict) :
  keys (fold_left (fun images num => store z images (filter (matches num) (namelist z)))
                  student_numbers images)
  = fold_left remember (all_matched_files student_numbers z) (keys images).
Proof.
  revert images. induction student_numbers as [|num nums IH]; intros images; [reflexivity|].
  cbn [fold_left]. unfold all_matched_files. cbn [flat_map].
  rewrite fold_left_app, IH, keys_store_remember. reflexivity.
Qed.

Lemma existsb_eqb_In (k : string) (seen : list string) :
  existsb (String.eqb k) seen = true <-> In k seen.
Proof.
  rewrite existsb_exists. split.
  - intros [x [Hx E]]. apply String.eqb_eq in E. now subst.
  - intros H. exists k. split; [assumption | apply String.eqb_refl].
Qed.

Lemma NoDup_snoc {A} (l : list A) (x : A) : NoDup l -> ~ In x l -> NoDup (l ++ [x]).
Proof.
  induction 1 as [|y l Hy Hl IH]; intros Hx; cbn.
  - constructor; [intros [] | constructor].
  - constructor.
    + rewrite in_app_iff. cbn. intros [H|[H|[]]]; [contradiction|].
      subst. apply Hx. now left.
    + apply IH. intros H. apply Hx. now right.
Qed.

Lemma NoDup_remember (seen : list string) (k : string) :
  NoDup seen -> NoDup (remember seen k).
Proof.
  intros H. unfold remember. destruct (existsb (String.eqb k) seen) eqn:E; [assumption|].
  apply NoDup_snoc; [assumption|]. intros Hin. apply existsb_eqb_In in Hin. congruence.
Qed.

Lemma NoDup_fold_remember (l seen : list string) :
  NoDup seen -> NoDup (fold_left remember l seen).
Proof.
  revert seen. induction l as [|x l IH]; intros seen H; [assumption|].
  cbn. apply IH. now apply NoDup_remember.
Qed.

Lemma fold_remember_fresh (l seen : list string) :
  NoDup l -> (forall x, In x l -> ~ In x seen) -> fold_left remember l seen = seen ++ l.
Proof.
  revert seen. induction l as [|x l IH]; intros seen Hl Hfresh; cbn.
  - now rewrite app_nil_r.
  - inversion Hl as [|? ? Hx Hl']. subst.
    unfold remember at 2.
    destruct (existsb (String.eqb x) seen) eqn:E.
    { apply existsb_eqb_In in E. exfalso. apply (Hfresh x); [now left | assumption]. }
    rewrite IH; [now rewrite <- app_assoc | assumption |].
    intros y Hy Hin. apply in_app_or in Hin as [Hin|[<-|[]]].
    + apply (Hfresh y); [now right | assumption].
    + contradiction.
Qed.

Lemma dict_of_keys (z : ZipFile) (d : dict) :
  (forall k v, In (k, v) d -> v = zip_read z k) ->
  d = map (fun f => (f, zip_read z f)) (keys d).
Proof.
  induction d as [|[k v] d IH]; intros H; [reflexivity|].
  cbn. rewrite (H k v (or_introl eq_refl)). f_equal.
  apply IH. intros k' v' Hin. apply H. now right.
Qed.

Lemma keys_first_occurrences (student_numbers : list string) (z : ZipFile) :
  keys (find_matching_images student_numbers z)
  = first_occurrences (all_matched_files student_numbers z).
Proof. unfold find_matching_images. apply keys_matcher_remember. Qed.

Lemma find_matching_images_of_keys (student_numbers : list string) (z : ZipFile) :
  find_matching_images student_numbers z
  = map (fun f => (f, zip_read z f)) (keys (find_matching_images student_numbers z)).
Proof. apply dict_of_keys. intros k v. apply values_find_matching_images. Qed.

(** X5: whatever the roster and the archive, no entry name is a key of
    the mapping twice, also when several numbers match it or the archive
    lists it twice, and every key is mapped to what the archive reads
    for it. *)
Theorem matched_files_stored_once (student_numbers : list string) (z : ZipFile) :
  NoDup (keys (find_matching_images student_numbers z))
  /\ find_matching_images student_numbers z
     = map (fun f => (f, zip_read z f)) (keys (find_matching_images student_numbers z)).
Proof.
  split.
  - rewrite keys_first_occurrences. apply NoDup_fold_remember. constructor.
  - apply find_matching_images_of_keys.
Qed.

(** X6: the keys of the mapping, which is the order the images get on
    the pages, are the matched file names in the order of their first
    match: roster order first, archive order within one number. *)
Theorem matched_files_in_first_match_order (student_numbers : list string) (z : ZipFile) :
  keys (find_matching_images student_numbers z)
  = first_occurrences (all_matched_files student_numbers z).
Proof.
  unfold find_matching_images, first_occurrences.
  now rewrite keys_matcher_remember.
Qed.

(** X7: for a roster of one number and an archive without repeated
    names, the mapping is the matching entries in archive order. *)
Theorem single_number_matches_in_archive_order (S : string) (z : ZipFile) :
  NoDup (namelist z) ->
  find_matching_images [S] z
  = map (fun f => (f, zip_read z f)) (filter (matches S) (namelist z)).
Proof.
  intros Hnames.
  rewrite find_matching_images_of_keys, keys_first_occurrences.
  unfold first_occurrences, all_matched_files. cbn [flat_map]. rewrite app_nil_r.
  rewrite fold_remember_fresh; [reflexivity | now apply NoDup_filter | intros x _ []].
Qed.

Lemma single_number_matches_in_archive_order_witness :
  NoDup (namelist sample_archive)
  /\ find_matching_images ["111"] sample_archive = [("A(111).jpg", jpeg_blob)].
Proof.
  assert (H : NoDup (namelist sample_archive)).
  { repeat constructor; cbn; intuition discriminate. }
  split; [exact H|].
  exact (single_number_matches_in_archive_order "111" sample_archive H).
Defined.

Lemma find_matching_images_empty_iff (student_numbers : list string) (z : ZipFile) :
  find_matching_images student_numbers z = []
  <-> forall f num, In f (namelist z) -> In num student_numbers -> matches num f = false.
Proof.
  split.
  - intros Hempty f num Hf Hnum.
    destruct (matches num f) eqn:E; [|reflexivity].
    assert (Hin : In f (keys (find_matching_images student_numbers z))).
    { apply keys_find_matching_images. eauto. }
    rewrite Hempty in Hin. destruct Hin.
  - intros Hnone.
    destruct (find_matching_images student_numbers z) as [|[k v] d] eqn:E; [reflexivity|].
    assert (Hin : In k (keys (find_matching_images student_numbers z))).
    { rewrite E. now left. }
    apply keys_find_matching_images in Hin as [Hk [num [Hnum Hm]]].
    rewrite (Hnone k num Hk Hnum) in Hm. discriminate.
Qed.

(** X8: the mapping is empty exactly when no archive name matches any
    number of the roster; in particular for an empty roster and for an
    empty archive. *)
Theorem empty_mapping_iff_no_match (student_numbers : list string) (z : ZipFile) :
  (find_matching_images student_numbers z = []
   <-> forall f num, In f (namelist z) -> In num student_numbers -> matches num f = false)
  /\ find_matching_images [] z = []
  /\ find_matching_images student_numbers [] = [].
Proof.
  split; [apply find_matching_images_empty_iff|]. split; [reflexivity|].
  apply find_matching_images_empty_iff. intros f num [].
Qed.

(** X9: which entries are matched depends only on which numbers the
    roster holds: a roster that holds all the numbers of another matches
    all the entries the other matches, so that reordering or repeating
    numbers changes no membership. *)
Theorem larger_roster_matches_more (student_numbers student_numbers' : list string)
        (z : ZipFile) :
  incl student_numbers student_numbers' ->
  incl (keys (find_matching_images student_numbers z))
       (keys (find_matching_images student_numbers' z)).
Proof.
  intros Hincl f Hf.
  apply keys_find_matching_images in Hf as [Hname [num [Hnum Hm]]].
  apply keys_find_matching_images. split; [assumption|].
  exists num. split; [now apply Hincl | assumption].
Qed.

Lemma larger_roster_matches_more_witness :
  incl ["111"] ["222"; "111"; "222"]
  /\ incl (keys (find_matching_images ["111"] sample_archive))
          (keys (find_matching_images ["222"; "111"; "222"] sample_archive)).
Proof.
  assert (H : incl ["111"] ["222"; "111"; "222"]).
  { intros x [<-|[]]. right. now left. }
  split; [exact H|].
  exact (larger_roster_matches_more ["111"] ["222"; "111"; "222"] sample_archive H).
Defined.

(** ** Grid composer: every entry once, and the whole world after a run *)

(** X10: the pages take every entry of the mapping exactly once and in
    order: the slots (page start [i], index [j] on the page) handed to
    the per-image code are, by their number [i + j], the entries of the
    list with their list indices. *)
Theorem pages_take_every_entry_once (image_list : list (string * bytes)) :
  flat_map (fun i => map (fun je => (i + fst je, snd je))
                         (enumerate (slice i IMAGES_PER_PAGE image_list)))
           (page_starts image_list)
  = enumerate image_list.
Proof. exact (pages_partition image_list). Qed.

(** ** Grid composer: what a run leaves on the disk and on the console *)

Lemma disk_read_remove_other (p q : string) (d : list (string * file)) :
  p <> q -> disk_read p (disk_remove q d) = disk_read p d.
Proof.
  intros Hpq. unfold disk_read, disk_remove.
  induction d as [|[k f] d IH]; [reflexivity|].
  cbn [filter find fst]. destruct (String.eqb k q) eqn:Ekq; cbn [negb].
  - apply String.eqb_eq in Ekq. subst k.
    destruct (String.eqb q p) eqn:Eqp; [|exact IH].
    apply String.eqb_eq in Eqp. congruence.
  - cbn [find fst]. destruct (String.eqb k p); [reflexivity | exact IH].
Qed.

Lemma disk_read_remove_same (p : string) (d : list (string * file)) :
  disk_read p (disk_remove p d) = None.
Proof.
  unfold disk_read, disk_remove.
  induction d as [|[k f] d IH]; [reflexivity|].
  cbn [filter find fst]. destruct (String.eqb k p) eqn:E; cbn [negb]; [exact IH|].
  cbn [find fst]. now rewrite E.
Qed.

Lemma disk_read_write_same (p : string) (f : file) (d : list (string * file)) :
  disk_read p (disk_write p f d) = Some f.
Proof. unfold disk_read, disk_write. cbn [find fst]. now rewrite String.eqb_refl. Qed.

Lemma disk_read_write_other (p q : string) (f : file) (d : list (string * file)) :
  p <> q -> disk_read p (disk_write q f d) = disk_read p d.
Proof.
  intros Hpq. rewrite <- (disk_read_remove_other p q d Hpq).
  unfold disk_read, disk_write. cbn [find fst].
  destruct (String.eqb q p) eqn:E; [|reflexivity].
  apply String.eqb_eq in E. congruence.
Qed.

Lemma on_disk_read (p : string) (d : list (string * file)) :
  on_disk p d = match disk_read p d with Some _ => true | None => false end.
Proof.
  unfold on_disk, disk_read. induction d as [|[k f] d IH]; [reflexivity|].
  cbn [existsb find fst]. destruct (String.eqb k p); [reflexivity | exact IH].
Qed.

Lemma str_of_nat_inj (a b : nat) : Py.str_of_nat a = Py.str_of_nat b -> a = b.
Proof.
  unfold Py.str_of_nat. intros H.
  apply (f_equal NilEmpty.uint_of_string) in H. rewrite !NilEmpty.usu in H.
  inversion H as [H']. apply (f_equal Nat.of_uint) in H'.
  now rewrite !DecimalNat.Unsigned.of_to in H'.
Qed.

Lemma temp_path_inj (a b : nat) : temp_path a = temp_path b -> a = b.
Proof.
  unfold temp_path. intros H. cbn [append] in H. inversion H as [H'].
  apply append_inv_tail in H'. now apply str_of_nat_inj.
Qed.

Lemma disk_read_entry_disk_other (env : Env) (i j : nat) (e : string * bytes)
      (p : string) (d : list (string * file)) :
  p <> temp_path (i + j) -> disk_read p (entry_disk env i (j, e) d) = disk_read p d.
Proof.
  intros Hp. destruct e as [filename img_bytes]. unfold entry_disk.
  destruct (saves env (i + j) img_bytes); [|reflexivity].
  destruct (Py.rsplit1 "(" (remove_file_extension filename)).
  - now rewrite disk_read_remove_other, disk_read_write_other.
  - now rewrite disk_read_write_other.
Qed.

Lemma disk_read_entry_disk_same (env : Env) (i j : nat) (e : string * bytes)
      (d : list (string * file)) :
  disk_read (temp_path (i + j)) (entry_disk env i (j, e) d)
  = temp_file_after env (i + j) e (disk_read (temp_path (i + j)) d).
Proof.
  destruct e as [filename img_bytes]. unfold entry_disk, temp_file_after. cbn [fst snd].
  destruct (saves env (i + j) img_bytes); [|reflexivity].
  destruct (Py.rsplit1 "(" (remove_file_extension filename)).
  - apply disk_read_remove_same.
  - apply disk_read_write_same.
Qed.

Lemma fold_entry_disk_other (env : Env) (p : string) (l : list (string * bytes))
      (n : nat) (d : list (string * file)) :
  (forall k, k < length l -> p <> temp_path (n + k)) ->
  disk_read p (fold_left (fun d e => entry_disk env 0 e d) (enumerate_from n l) d)
  = disk_read p d.
Proof.
  revert n d. induction l as [|x l IH]; intros n d H; [reflexivity|].
  cbn [enumerate_from fold_left]. rewrite IH.
  - apply disk_read_entry_disk_other. cbn [Nat.add].
    specialize (H 0). rewrite Nat.add_0_r in H. apply H. cbn. lia.
  - intros k Hk. specialize (H (S k)). rewrite Nat.add_succ_r in H. apply H. cbn. lia.
Qed.

Lemma fold_entry_disk_at (env : Env) (l : list (string * bytes))
      (n k : nat) (e : string * bytes) (d : list (string * file)) :
  nth_error l k = Some e ->
  disk_read (temp_path (n + k))
            (fold_left (fun d e => entry_disk env 0 e d) (enumerate_from n l) d)
  = temp_file_after env (n + k) e (disk_read (temp_path (n + k)) d).
Proof.
  revert n k d. induction l as [|x l IH]; intros n k d Hk.
  - destruct k; discriminate.
  - cbn [enumerate_from fold_left]. destruct k as [|k]; cbn [nth_error] in Hk.
    + inversion Hk. subst x. rewrite fold_entry_disk_other.
      * rewrite Nat.add_0_r. apply (disk_read_entry_disk_same env 0 n).
      * intros k' _ Heq. apply temp_path_inj in Heq. lia.
    + rewrite Nat.add_succ_r. change (S (n + k)) with (S n + k).
      rewrite (IH (S n) k _ Hk). f_equal.
      apply (disk_read_entry_disk_other env 0 n).
      intros Heq. apply temp_path_inj in Heq. lia.
Qed.

Lemma In_entry_messages (env : Env) (i : nat) (entries : list (nat * (string * bytes)))
      (m : message) :
  In m (flat_map (entry_messages env i) entries) ->
  exists filename e, m = Print_error_processing filename e.
Proof.
  intros H. apply in_flat_map in H as [[j [filename img_bytes]] [_ H]].
  unfold entry_messages in H. destruct (decodable env img_bytes).
  - destruct (save_error env img_bytes (temp_path (i + j))).
    + destruct H as [<-|[]]. eauto.
    + destruct (Py.rsplit1 "(" (remove_file_extension filename)); [destruct H|].
      destruct H as [<-|[]]. eauto.
  - destruct H as [<-|[]]. eauto.
Qed.

Lemma entry_messages_failing (env : Env) (entries : list (nat * (string * bytes))) :
  flat_map (entry_messages env 0) entries
  = map (error_message env) (filter (entry_fails env) entries).
Proof.
  induction entries as [|[n [filename img_bytes]] entries IH]; [reflexivity|].
  cbn [flat_map filter]. rewrite IH.
  unfold entry_messages at 1, entry_fails at 2, error_message at 2, saves.
  cbn [fst snd Nat.add].
  destruct (decodable env img_bytes) eqn:Ed; cbn [andb negb orb].
  - destruct (save_error env img_bytes (temp_path n)) as [e|] eqn:Es; cbn [negb orb].
    + cbn [map app]. unfold error_message at 1. cbn [fst snd]. now rewrite Ed, Es.
    + destruct (Py.rsplit1 "(" (remove_file_extension filename)); [reflexivity|].
      cbn [map app]. unfold error_message at 1. cbn [fst snd]. now rewrite Ed, Es.
  - cbn [map app]. unfold error_message at 1. cbn [fst snd]. now rewrite Ed.
Qed.

(** X11: no failure of an image makes the composer raise: it raises
    exactly when the mapping is not empty and [pdf.output] raises for
    the output path, and then with that exception.  In every case
    the document object it builds has one page for every sixteen entries
    of the mapping, the last one possibly short: failing entries take a
    slot like the others. *)
Theorem create_pdf_raises_only_on_output (env : Env) (image_data : dict)
        (output_pdf : string) (w : world) :
  fst (create_pdf env image_data output_pdf w)
  = match image_data with
    | [] => Ok tt
    | _ :: _ => match output_error env output_pdf with
                | None => Ok tt
                | Some e => Raise e
                end
    end
  /\ length (pdf (snd (create_pdf env image_data output_pdf w)))
     = (length image_data + 15) / 16.
Proof.
  rewrite create_pdf_effect. destruct image_data as [|entry rest]; [split; reflexivity|].
  destruct (output_error env output_pdf); cbn [fst snd pdf];
    (split; [reflexivity | now rewrite length_map, length_page_starts]).
Qed.

(** X12: what the composer prints is added after what was printed
    before; the text that no valid image was found is among it exactly
    when the mapping is empty, and then the disk is as before; the text
    that the document was saved is among it exactly when the mapping is
    not empty and [pdf.output] does not raise for the output path. *)
Theorem no_valid_images_iff_empty_mapping (env : Env) (image_data : dict)
        (output_pdf : string) (w : world) :
  exists printed,
    stdout (snd (create_pdf env image_data output_pdf w)) = stdout w ++ printed
    /\ (In Print_no_valid_images printed <-> image_data = [])
    /\ (In (Print_pdf_saved output_pdf) printed
        <-> image_data <> [] /\ output_error env output_pdf = None)
    /\ (image_data = [] -> disk (snd (create_pdf env image_data output_pdf w)) = disk w).
Proof.
  rewrite create_pdf_effect. destruct image_data as [|entry rest].
  - exists [Print_no_valid_images]. cbn [snd stdout disk].
    split; [reflexivity|]. split; [|split].
    + split; [reflexivity | intros _; now left].
    + split; [intros [H|[]]; discriminate | intros [H _]; now elim H].
    + reflexivity.
  - destruct (output_error env output_pdf) as [e0|]; eexists; cbn [snd stdout disk];
      (split; [reflexivity|]); (split; [|split]).
    + split; [|discriminate]. intros H.
      apply In_entry_messages in H as [f [e H]]. discriminate.
    + split; [|intros [_ H]; discriminate].
      intros H. apply In_entry_messages in H as [f [e H]]. discriminate.
    + discriminate.
    + split; [|discriminate]. intros H. apply in_app_or in H as [H|[H|[]]].
      * apply In_entry_messages in H as [f [e H]]. discriminate.
      * discriminate.
    + split; [intros _; split; [discriminate | reflexivity]|].
      intros _. apply in_or_app. right. now left.
    + discriminate.
Qed.

(** X13: after what was printed before, the composer prints exactly one
    error line per failing entry, in the order of the mapping, and then
    its closing line, if any.  An entry fails when its blob does not
    open ([UnidentifiedImageError]), when its image cannot be saved
    (the exception of [img.save]), or when its label holds no opening
    parenthesis ([ValueError]). *)
Theorem one_error_line_per_failing_entry (env : Env) (image_data : dict)
        (output_pdf : string) (w : world) :
  stdout (snd (create_pdf env image_data output_pdf w))
  = stdout w
    ++ map (error_message env) (filter (entry_fails env) (enumerate image_data))
    ++ match image_data with
       | [] => [Print_no_valid_images]
       | _ :: _ => match output_error env output_pdf with
                   | None => [Print_pdf_saved output_pdf]
                   | Some _ => []
                   end
       end.
Proof.
  rewrite create_pdf_effect. destruct image_data as [|entry rest] eqn:E; [reflexivity|].
  rewrite <- E. rewrite <- entry_messages_failing.
  destruct (output_error env output_pdf); cbn [snd stdout]; [|reflexivity].
  now rewrite app_nil_r.
Qed.

(** X14: the temporary file of the entry with index [k], when the
    document itself is not written under that name and an image that
    opens is also saved: after the run the path holds the saved image if
    the blob opens and the label does not split, it does not exist if
    the blob opens and the label splits, also when a file of that name
    was there before, and it is as before if the blob does not open. *)
Theorem temporary_file_of_entry (env : Env) (image_data : dict)
        (output_pdf : string) (w : world) (k : nat) (entry : string * bytes) :
  nth_error image_data k = Some entry ->
  output_pdf <> temp_path k ->
  (decodable env (snd entry) = true -> saves env k (snd entry) = true) ->
  disk_read (temp_path k) (disk (snd (create_pdf env image_data output_pdf w)))
  = if decodable env (snd entry) then
      match Py.rsplit1 "(" (remove_file_extension (fst entry)) with
      | None => Some Jpeg_file
      | Some _ => None
      end
    else disk_read (temp_path k) (disk w).
Proof.
  intros Hk Hout Hsaved.
  assert (Hafter : disk_read (temp_path k)
                     (disk (snd (create_pdf env image_data output_pdf w)))
                   = temp_file_after env k entry (disk_read (temp_path k) (disk w))).
  { rewrite create_pdf_effect.
    destruct image_data as [|first rest] eqn:E; [destruct k; discriminate|].
    rewrite <- E in *.
    assert (Hfold : disk_read (temp_path k)
                      (fold_left (fun d e => entry_disk env 0 e d) (enumerate image_data)
                                 (disk w))
                    = temp_file_after env k entry (disk_read (temp_path k) (disk w))).
    { unfold enumerate. apply (fold_entry_disk_at env image_data 0 k entry). exact Hk. }
    destruct (output_error env output_pdf); cbn [snd disk]; [exact Hfold|].
    rewrite disk_read_write_other by congruence. exact Hfold. }
  rewrite Hafter. unfold temp_file_after.
  destruct (decodable env (snd entry)) eqn:Hdec.
  - now rewrite (Hsaved eq_refl).
  - unfold saves. now rewrite Hdec.
Qed.

Lemma temporary_file_of_entry_witness :
  nth_error [("Ann Lee (111).jpg", jpeg_blob)] 0 = Some ("Ann Lee (111).jpg", jpeg_blob)
  /\ "Monday_1400.pdf" <> temp_path 0
  /\ (decodable sample_env jpeg_blob = true -> saves sample_env 0 jpeg_blob = true)
  /\ disk_read (temp_path 0)
       (disk (snd (create_pdf sample_env [("Ann Lee (111).jpg", jpeg_blob)] "Monday_1400.pdf"
                     {| disk := [(temp_path 0, Jpeg_file)]; stdout := []; pdf := [] |})))
     = None.
Proof.
  assert (Hout : "Monday_1400.pdf" <> temp_path 0) by (intros H; vm_compute in H; discriminate).
  assert (Hsaved : decodable sample_env jpeg_blob = true -> saves sample_env 0 jpeg_blob = true)
    by (intros _; reflexivity).
  split; [reflexivity|]. split; [exact Hout|]. split; [exact Hsaved|].
  exact (temporary_file_of_entry sample_env [("Ann Lee (111).jpg", jpeg_blob)]
           "Monday_1400.pdf" {| disk := [(temp_path 0, Jpeg_file)]; stdout := []; pdf := [] |}
           0 ("Ann Lee (111).jpg", jpeg_blob) eq_refl Hout Hsaved).
Defined.

(** X15: the composer touches no other file: what the disk holds under a
    path that is neither the output path nor the temporary path of an
    index of the mapping is as it was before the run. *)
Theorem other_files_untouched (env : Env) (image_data : dict)
        (output_pdf : string) (w : world) (path : string) :
  path <> output_pdf ->
  (forall k, k < length image_data -> path <> temp_path k) ->
  disk_read path (disk (snd (create_pdf env image_data output_pdf w)))
  = disk_read path (disk w).
Proof.
  intros Hout Htemp. rewrite create_pdf_effect.
  destruct image_data as [|first rest] eqn:E; [reflexivity|].
  rewrite <- E in *.
  assert (Hfold : disk_read path
                    (fold_left (fun d e => entry_disk env 0 e d) (enumerate image_data)
                               (disk w))
                  = disk_read path (disk w)).
  { unfold enumerate. apply fold_entry_disk_other. exact Htemp. }
  destruct (output_error env output_pdf); cbn [snd disk]; [exact Hfold|].
  rewrite disk_read_write_other by assumption. exact Hfold.
Qed.

Lemma other_files_untouched_witness :
  "notes.txt" <> "Monday_1400.pdf"
  /\ (forall k, k < length [("Ann Lee (111).jpg", jpeg_blob)] -> "notes.txt" <> temp_path k)
  /\ disk_read "notes.txt"
       (disk (snd (create_pdf sample_env [("Ann Lee (111).jpg", jpeg_blob)] "Monday_1400.pdf"
                     {| disk := [("notes.txt", Jpeg_file)]; stdout := []; pdf := [] |})))
     = Some Jpeg_file.
Proof.
  assert (Hout : "notes.txt" <> "Monday_1400.pdf") by discriminate.
  assert (Htemp : forall k, k < length [("Ann Lee (111).jpg", jpeg_blob)] ->
                            "notes.txt" <> temp_path k)
    by (intros k _ H; unfold temp_path in H; cbn [append] in H; discriminate).
  split; [exact Hout|]. split; [exact Htemp|].
  exact (other_files_untouched sample_env [("Ann Lee (111).jpg", jpeg_blob)]
           "Monday_1400.pdf" {| disk := [("notes.txt", Jpeg_file)]; stdout := []; pdf := [] |}
           "notes.txt" Hout Htemp).
Defined.

(** X16: for a mapping that is not empty, what becomes of the document
    depends on the output path alone.  If [pdf.output] does not raise
    for it, the composer returns normally, the path holds after the run
    the document with exactly the pages built in this run, whatever was
    stored under it before, and the line that it was saved is the last
    one printed.  If it raises, the composer ends with that exception
    once all the images have been processed; that line is not printed,
    and what the disk holds under the path is as before, unless the path
    is one of the temporary paths of the run. *)
Theorem document_written_for_nonempty_mapping (env : Env) (image_data : dict)
        (output_pdf : string) (w : world) :
  image_data <> [] ->
  (output_error env output_pdf = None ->
   fst (create_pdf env image_data output_pdf w) = Ok tt
   /\ disk_read output_pdf (disk (snd (create_pdf env image_data output_pdf w)))
      = Some (Pdf_file (map (rendered_page env image_data) (page_starts image_data)))
   /\ exists printed,
        stdout (snd (create_pdf env image_data output_pdf w))
        = printed ++ [Print_pdf_saved output_pdf])
  /\ (forall e, output_error env output_pdf = Some e ->
      fst (create_pdf env image_data output_pdf w) = Raise e
      /\ ((forall k, k < length image_data -> output_pdf <> temp_path k) ->
          disk_read output_pdf (disk (snd (create_pdf env image_data output_pdf w)))
          = disk_read output_pdf (disk w))
      /\ exists errors,
           stdout (snd (create_pdf env image_data output_pdf w)) = stdout w ++ errors
           /\ ~ In (Print_pdf_saved output_pdf) errors).
Proof.
  intros Hne. rewrite (create_pdf_effect_nonempty env image_data output_pdf w Hne).
  split; [intros Hw | intros e Hw]; rewrite Hw; cbn [fst snd disk stdout].
  - split; [reflexivity|]. split; [apply disk_read_write_same|].
    eexists. now rewrite app_assoc.
  - split; [reflexivity|]. split.
    + intros Htemp. unfold enumerate. now apply fold_entry_disk_other.
    + eexists. split; [reflexivity|].
      intros H. apply In_entry_messages in H as [f [e' H]]. discriminate.
Qed.

Lemma document_written_for_nonempty_mapping_witness :
  [("Ann Lee (111).jpg", jpeg_blob)] <> []
  /\ output_error sample_env "Mon/Tue_0900.pdf" = Some FileNotFoundError
  /\ fst (create_pdf sample_env [("Ann Lee (111).jpg", jpeg_blob)] "Mon/Tue_0900.pdf"
            empty_world) = Raise FileNotFoundError.
Proof.
  assert (Hne : [("Ann Lee (111).jpg", jpeg_blob)] <> ([] : dict)) by discriminate.
  split; [exact Hne|]. split; [reflexivity|].
  exact (proj1 (proj2 (document_written_for_nonempty_mapping sample_env
                         [("Ann Lee (111).jpg", jpeg_blob)] "Mon/Tue_0900.pdf"
                         empty_world Hne) FileNotFoundError eq_refl)).
Defined.
(** ** File names: the extension and the naming convention *)

Lemma append_nil_r_str (s : string) : (s ++ "")%string = s.
Proof. induction s as [|x s IH]; cbn; [reflexivity | now rewrite IH]. Qed.

Lemma rsplit1_app_nosep (c : ascii) (a b : string) :
  ~ Py.In_str c b ->
  Py.rsplit1 c (a ++ b)
  = match Py.rsplit1 c a with
    | Some (x, y) => Some (x, (y ++ b)%string)
    | None => None
    end.
Proof.
  intros Hb. induction a as [|x a IH]; cbn.
  - now apply rsplit1_None.
  - rewrite IH. destruct (Py.rsplit1 c a) as [[u v]|]; [reflexivity|].
    destruct (Ascii.eqb x c); reflexivity.
Qed.

Lemma all_chars_false (p : ascii -> bool) (s : string) (c : ascii) :
  Py.In_str c s -> p c = false -> Py.all_chars p s = false.
Proof.
  induction s as [|x s IH]; cbn; [intros []|].
  intros [->|H] Hp; [now rewrite Hp|]. rewrite IH by assumption. apply andb_false_r.
Qed.

Lemma all_chars_nonempty (p : ascii -> bool) (s : string) :
  Py.all_chars p s = false -> s <> "".
Proof. intros H ->. discriminate. Qed.

Lemma append_nonempty_r (a b : string) : b <> "" -> (a ++ b)%string <> "".
Proof. destruct a; [trivial | discriminate]. Qed.

(** X17: the label is the file name without an extension: the file name
    is the label followed by nothing, or by a dot and a text that holds
    no dot and no slash; and the label of a non-empty file name is not
    empty. *)
Theorem remove_file_extension_cuts_extension (filename : string) :
  (exists ext,
      filename = (remove_file_extension filename ++ ext)%string
      /\ (ext = ""
          \/ exists e, ext = String "." e /\ ~ Py.In_str "." e /\ ~ Py.In_str "/" e))
  /\ (filename <> "" -> remove_file_extension filename <> "").
Proof.
  unfold remove_file_extension, Py.splitext.
  destruct (Py.rsplit1 "/" filename) as [[d f]|] eqn:Ed.
  - destruct (Py.rsplit1 "." f) as [[stem e]|] eqn:Ee.
    + destruct (Py.all_chars (Ascii.eqb ".") stem) eqn:Ea; cbn [fst].
      * split; [|trivial]. exists "". split; [now rewrite append_nil_r_str | now left].
      * apply rsplit1_Some in Ed as [-> Hf]. apply rsplit1_Some in Ee as [-> He]. split.
        -- exists (String "." e). split.
           ++ rewrite !append_assoc_str. reflexivity.
           ++ right. exists e. split; [reflexivity|]. split; [assumption|].
              intros H. apply Hf, In_str_app. right. now right.
        -- intros _. apply append_nonempty_r. now apply all_chars_nonempty in Ea.
    + cbn [fst]. split; [|trivial]. exists "". split; [now rewrite append_nil_r_str | now left].
  - destruct (Py.rsplit1 "." filename) as [[stem e]|] eqn:Ee.
    + destruct (Py.all_chars (Ascii.eqb ".") stem) eqn:Ea; cbn [fst].
      * split; [|trivial]. exists "". split; [now rewrite append_nil_r_str | now left].
      * apply rsplit1_None in Ed. apply rsplit1_Some in Ee as [-> He]. split.
        -- exists (String "." e). split; [reflexivity|].
           right. exists e. split; [reflexivity|]. split; [assumption|].
           intros H. apply Ed, In_str_app. right. now right.
        -- intros _. cbn [append]. now apply all_chars_nonempty in Ea.
    + cbn [fst]. split; [|trivial]. exists "". split; [now rewrite append_nil_r_str | now left].
Qed.

Lemma remove_file_extension_paren (body ext : string) :
  ~ Py.In_str "." ext -> ~ Py.In_str "/" ext ->
  remove_file_extension (body ++ String ")" (String "." ext)) = (body ++ ")")%string.
Proof.
  intros Hdot Hslash. unfold remove_file_extension, Py.splitext.
  assert (Htail : ~ Py.In_str "/" (String ")" (String "." ext))).
  { cbn. intros [H|[H|H]]; [discriminate | discriminate | contradiction]. }
  rewrite (rsplit1_app_nosep "/" body _ Htail).
  destruct (Py.rsplit1 "/" body) as [[d f]|] eqn:Ed.
  - assert (Ef : (f ++ String ")" (String "." ext))%string
                 = ((f ++ ")") ++ String "." ext)%string)
      by (now rewrite append_assoc_str).
    rewrite Ef, (rsplit1_app_sep "." (f ++ ")") ext Hdot).
    rewrite (all_chars_false _ (f ++ ")") ")").
    + cbn [fst]. apply rsplit1_Some in Ed as [-> _].
      rewrite !append_assoc_str. reflexivity.
    + apply In_str_app. right. now left.
    + reflexivity.
  - assert (Ef : (body ++ String ")" (String "." ext))%string
                 = ((body ++ ")") ++ String "." ext)%string)
      by (now rewrite append_assoc_str).
    rewrite Ef, (rsplit1_app_sep "." (body ++ ")") ext Hdot).
    rewrite (all_chars_false _ (body ++ ")") ")").
    + reflexivity.
    + apply In_str_app. right. now left.
    + reflexivity.
Qed.

Lemma label_of_convention (name number ext : string) :
  ~ Py.In_str "(" number -> ~ Py.In_str ")" number ->
  ~ Py.In_str "." ext -> ~ Py.In_str "/" ext ->
  Py.rsplit1 "(" (remove_file_extension (name ++ "(" ++ number ++ ")." ++ ext))
  = Some (name, (number ++ ")")%string)
  /\ Py.rstrip_char ")" (number ++ ")") = number.
Proof.
  intros Hopen Hclose Hdot Hslash. split.
  - assert (E : (name ++ "(" ++ number ++ ")." ++ ext)%string
                = ((name ++ String "(" number) ++ String ")" (String "." ext))%string).
    { now rewrite append_assoc_str. }
    rewrite E, remove_file_extension_paren by assumption.
    rewrite append_assoc_str. cbn [append]. apply rsplit1_app_sep.
    intros H. apply In_str_app in H as [H|[H|[]]]; [contradiction | discriminate].
  - unfold Py.rstrip_char. rewrite rstrip_app_all by reflexivity.
    apply rstrip_id. intros c Hc.
    destruct (Ascii.eqb ")" c) eqn:E; [|reflexivity].
    apply Ascii.eqb_eq in E. subst. contradiction.
Qed.

(** X18: an entry that follows the naming convention, a name, the number
    in parentheses and an extension, whose blob opens and whose image is
    saved, is placed in full: the image in its grid cell, under it the
    trimmed name and the number without its parentheses, nothing printed
    and the temporary file removed again. *)
Theorem well_named_image_is_labelled (env : Env) (i j : nat)
        (name number ext : string) (img_bytes : bytes) (w : world)
        (ps : list page) (p : page) :
  decodable env img_bytes = true ->
  save_error env img_bytes (temp_path (i + j)) = None ->
  ~ Py.In_str "(" number -> ~ Py.In_str ")" number ->
  ~ Py.In_str "." ext -> ~ Py.In_str "/" ext ->
  pdf w = ps ++ [p] ->
  process_image env i (j, ((name ++ "(" ++ number ++ ")." ++ ext)%string, img_bytes)) w
  = (Ok tt,
     {| disk := disk_remove (temp_path (i + j))
                  (disk_write (temp_path (i + j)) Jpeg_file (disk w));
        stdout := stdout w;
        pdf := ps ++ [p ++ [Op_image (temp_path (i + j)) (cell_x j) (cell_y j)
                                     IMAGE_WIDTH IMAGE_HEIGHT;
                            Op_set_xy (cell_x j) (cell_y j + IMAGE_HEIGHT);
                            Op_set_font "Helvetica" 8;
                            Op_cell IMAGE_WIDTH (TEXT_HEIGHT - 2) (Py.strip name);
                            Op_ln (TEXT_HEIGHT - 2);
                            Op_set_x (cell_x j);
                            Op_cell IMAGE_WIDTH (TEXT_HEIGHT - 2) number]] |}).
Proof.
  intros Hdec Hsave Hopen Hclose Hdot Hslash Hpdf.
  destruct (label_of_convention name number ext Hopen Hclose Hdot Hslash) as [Hsplit Hstrip].
  rewrite (process_image_world env i _ w ps p Hpdf).
  unfold entry_disk, entry_messages, entry_ops, saves.
  rewrite Hdec, Hsave, Hsplit, Hstrip, app_nil_r. reflexivity.
Qed.

Lemma well_named_image_is_labelled_witness :
  decodable sample_env jpeg_blob = true
  /\ save_error sample_env jpeg_blob (temp_path (16 + 3)) = None
  /\ ~ Py.In_str "(" "111" /\ ~ Py.In_str ")" "111"
  /\ ~ Py.In_str "." "jpg" /\ ~ Py.In_str "/" "jpg"
  /\ fst (process_image sample_env 16 (3, ("Ann Lee (111).jpg", jpeg_blob))
            {| disk := []; stdout := []; pdf := [[]; []] |}) = Ok tt.
Proof.
  assert (H1 : ~ Py.In_str "(" "111") by (cbn; intuition discriminate).
  assert (H2 : ~ Py.In_str ")" "111") by (cbn; intuition discriminate).
  assert (H3 : ~ Py.In_str "." "jpg") by (cbn; intuition discriminate).
  assert (H4 : ~ Py.In_str "/" "jpg") by (cbn; intuition discriminate).
  split; [reflexivity|]. split; [reflexivity|].
  split; [exact H1|]. split; [exact H2|].
  split; [exact H3|]. split; [exact H4|].
  exact (f_equal fst
           (well_named_image_is_labelled sample_env 16 3 "Ann Lee " "111" "jpg" jpeg_blob
              {| disk := []; stdout := []; pdf := [[]; []] |} [[]] [] eq_refl eq_refl
              H1 H2 H3 H4 eq_refl)).
Defined.
(** ** The loop over the sheets: when a run completes and what a sheet yields *)

Lemma for_each_app {A} (a b : list A) (body : A -> M unit) (w : world) :
  for_each (a ++ b) body w
  = match for_each a body w with
    | (Ok tt, w') => for_each b body w'
    | (Raise e, w') => (Raise e, w')
    end.
Proof.
  revert w. induction a as [|x a IH]; intros w; [reflexivity|].
  cbn [app for_each]. unfold bind.
  destruct (body x w) as [[[]|e] w1]; [apply IH | reflexivity].
Qed.



Lemma process_sheet_readable (env : Env) (zip_file : ZipFile) (sheet : Sheet)
      (w : world) (student_numbers : list string) (b3 : string) :
  get_student_numbers sheet = Ok student_numbers ->
  cell_value sheet 2 1 = Ok (Text b3) ->
  process_sheet env zip_file sheet w
  = match find_matching_images student_numbers zip_file with
    | [] => (Ok tt, {| disk := disk w;
                       stdout := stdout w ++ [Print_roster student_numbers;
                                              Print_no_matching (sheet_name sheet)];
                       pdf := pdf w |})
    | _ :: _ =>
        create_pdf env (find_matching_images student_numbers zip_file)
                   (extract_pdf_name b3 ++ ".pdf")
                   {| disk := disk w; stdout := stdout w ++ [Print_roster student_numbers];
                      pdf := pdf w |}
    end.
Proof.
  intros Hroster Hb3. unfold process_sheet, bind, lift, print.
  rewrite Hroster, Hb3.
  destruct (String.eqb (extract_pdf_name b3) "") eqn:E.
  { apply String.eqb_eq in E. now apply extract_pdf_name_nonempty in E. }
  destruct (find_matching_images student_numbers zip_file); [|reflexivity].
  cbn [disk stdout pdf]. now rewrite <- app_assoc.
Qed.










(** X20: when a run reaches a sheet whose cell B3 is outside the sheet
    or holds a number, it ends there, after the roster of the sheet is
    printed: what the sheets before it did stays, nothing is written for
    it, and the sheets after it are never looked at. *)
Theorem unreadable_b3_aborts_run (env : Env) (before after : list Sheet)
        (sheet : Sheet) (zip_file : ZipFile) (w : world) (student_numbers : list string) :
  fst (main env before zip_file w) = Ok tt ->
  get_student_numbers sheet = Ok student_numbers ->
  (cell_value sheet 2 1 = Raise IndexError
   \/ exists x, cell_value sheet 2 1 = Ok (Number x)) ->
  exists e,
    main env (before ++ sheet :: after) zip_file w
    = (Raise e,
       {| disk := disk (snd (main env before zip_file w));
          stdout := stdout (snd (main env before zip_file w))
                    ++ [Print_roster student_numbers];
          pdf := pdf (snd (main env before zip_file w)) |})
    /\ (e = IndexError \/ e = AttributeError).
Proof.
  intros Hbefore Hroster Hb3. unfold main in *. rewrite for_each_app.
  destruct (for_each before (process_sheet env zip_file) w) as [[[]|e] w1];
    [|discriminate].
  cbn [snd for_each]. unfold bind at 1. unfold process_sheet, bind, lift, print, raise.
  rewrite Hroster. destruct Hb3 as [Hb3|[x Hb3]]; rewrite Hb3; eexists; split;
    [reflexivity | now left | reflexivity | now right].
Qed.

Lemma unreadable_b3_aborts_run_witness :
  fst (main sample_env [matched_sheet] sample_archive empty_world) = Ok tt
  /\ get_student_numbers short_sheet = Ok []
  /\ (cell_value short_sheet 2 1 = Raise IndexError
      \/ exists x, cell_value short_sheet 2 1 = Ok (Number x))
  /\ exists e,
       fst (main sample_env ([matched_sheet] ++ short_sheet :: [sample_sheet]) sample_archive
              empty_world) = Raise e.
Proof.
  assert (Hb3 : cell_value short_sheet 2 1 = Raise IndexError
                \/ exists x, cell_value short_sheet 2 1 = Ok (Number x))
    by (left; reflexivity).
  split; [reflexivity|]. split; [reflexivity|]. split; [exact Hb3|].
  destruct (unreadable_b3_aborts_run sample_env [matched_sheet] [sample_sheet] short_sheet
              sample_archive empty_world [] eq_refl eq_refl Hb3) as [e [He _]].
  exists e. exact (f_equal fst He).
Defined.

(** X21: a readable sheet none of whose numbers occurs in the name of an
    image of the archive writes nothing: its roster and the line that no
    image matches are printed, and the disk and the document object are
    as before. *)
Theorem sheet_without_photos_writes_nothing (env : Env) (zip_file : ZipFile)
        (sheet : Sheet) (w : world) (student_numbers : list string) (b3 : string) :
  get_student_numbers sheet = Ok student_numbers ->
  cell_value sheet 2 1 = Ok (Text b3) ->
  (forall f num, In f (namelist zip_file) -> In num student_numbers -> matches num f = false) ->
  process_sheet env zip_file sheet w
  = (Ok tt, {| disk := disk w;
               stdout := stdout w ++ [Print_roster student_numbers;
                                      Print_no_matching (sheet_name sheet)];
               pdf := pdf w |}).
Proof.
  intros Hroster Hb3 Hnone.
  rewrite (process_sheet_readable env zip_file sheet w student_numbers b3) by assumption.
  apply find_matching_images_empty_iff in Hnone. now rewrite Hnone.
Qed.

Lemma sheet_without_photos_writes_nothing_witness :
  get_student_numbers unmatched_sheet = Ok ["555"]
  /\ cell_value unmatched_sheet 2 1 = Ok (Text "Tuesday, 09:00")
  /\ (forall f num, In f (namelist sample_archive) -> In num ["555"] -> matches num f = false)
  /\ disk (snd (process_sheet sample_env sample_archive unmatched_sheet empty_world)) = [].
Proof.
  assert (Hnone : forall f num, In f (namelist sample_archive) -> In num ["555"] ->
                                matches num f = false).
  { intros f num Hf [<-|[]]. cbn in Hf.
    destruct Hf as [<-|[<-|[<-|[<-|[]]]]]; reflexivity. }
  split; [reflexivity|]. split; [reflexivity|]. split; [exact Hnone|].
  exact (f_equal (fun r => disk (snd r))
           (sheet_without_photos_writes_nothing sample_env sample_archive unmatched_sheet
              empty_world ["555"] "Tuesday, 09:00" eq_refl eq_refl Hnone)).
Defined.



(** ** The grid *)

(** X23: the sixteen slots of a page: the box of a slot, the image with
    the two label lines under it, lies within 200 by 284 units, and the
    boxes of two different slots do not overlap. *)
Theorem grid_slots_fit_and_do_not_overlap (j j' : nat) :
  j < IMAGES_PER_PAGE -> j' < IMAGES_PER_PAGE -> j <> j' ->
  slot_right j <= 200
  /\ slot_bottom j <= 284
  /\ (slot_right j <= cell_x j' \/ slot_right j' <= cell_x j
      \/ slot_bottom j <= cell_y j' \/ slot_bottom j' <= cell_y j).
Proof.
  unfold slot_right, slot_bottom, cell_x, cell_y, IMAGES_PER_PAGE, IMAGES_PER_ROW,
    ROWS_PER_PAGE, IMAGE_WIDTH, IMAGE_HEIGHT, MARGIN_X, MARGIN_Y, SPACING_X, SPACING_Y,
    TEXT_HEIGHT.
  intros Hj Hj' Hne.
  pose proof (Nat.div_mod_eq j 4). pose proof (Nat.mod_upper_bound j 4).
  pose proof (Nat.div_mod_eq j' 4). pose proof (Nat.mod_upper_bound j' 4).
  lia.
Qed.

Lemma grid_slots_fit_and_do_not_overlap_witness :
  3 < IMAGES_PER_PAGE /\ 4 < IMAGES_PER_PAGE /\ 3 <> 4
  /\ slot_right 3 <= 200 /\ slot_bottom 4 <= cell_y 8.
Proof.
  assert (H3 : 3 < IMAGES_PER_PAGE) by (vm_compute; lia).
  assert (H4 : 4 < IMAGES_PER_PAGE) by (vm_compute; lia).
  assert (Hne : 3 <> 4) by discriminate.
  split; [exact H3|]. split; [exact H4|]. split; [exact Hne|].
  split; [exact (proj1 (grid_slots_fit_and_do_not_overlap 3 4 H3 H4 Hne))|].
  vm_compute. lia.
Defined.

